(** * NITTA synthesis ML: data crawling

    A shallow embedding of
    - [components/data_crawling/node/node_converting.py]
      (the feature extractor [nitta_node_to_df_dict]), and
    - [components/data_crawling/data_crawling.py]
      (the sampling driver [crawl_data_from_example] and the crawl
      orchestrator [crawl_data_from_many_examples]),
    followed by the properties the specification states about them. *)

From stdpp Require Import gmap strings list fin_maps.
From Stdlib Require Import ZArith Lia.

Local Open Scope Z_scope.
Local Open Scope string_scope.
Local Open Scope list_scope.

(** ** Python values and exceptions *)

(** The values that travel through the code: JSON-like payloads of a tree
    node and the cells of a feature row.  Dicts are keyed by strings (they
    come from JSON objects and end up as keyword arguments). *)
#[warnings="-register-all"]
Inductive PyVal : Type :=
  | PNone
  | PBool (b : bool)
  | PInt (z : Z)
  | PStr (s : string)
  | PList (xs : list PyVal)
  | PDict (m : gmap string PyVal).

(** The exception classes the code can meet.  [except Exception] catches the
    subclasses of [Exception]; [KeyboardInterrupt], [SystemExit],
    [GeneratorExit] and [asyncio.CancelledError] derive from [BaseException]
    directly. *)
Inductive PyExc : Type :=
  | KeyboardInterrupt
  | SystemExit
  | GeneratorExit
  | CancelledError
  | AssertionError
  | KeyError
  | TypeError
  | OtherException (cls : string).

(** [isinstance(e, Exception)] *)
Definition is_Exception (e : PyExc) : bool :=
  match e with
  | KeyboardInterrupt | SystemExit | GeneratorExit | CancelledError => false
  | AssertionError | KeyError | TypeError | OtherException _ => true
  end.

(** Result of a pure but fallible computation. *)
Inductive Res (A : Type) : Type :=
  | Ok (a : A)
  | Raise (e : PyExc).
Arguments Ok {A} a.
Arguments Raise {A} e.

Definition res_bind {A B} (r : Res A) (f : A → Res B) : Res B :=
  match r with
  | Ok a => f a
  | Raise e => Raise e
  end.

Notation "'let?' x := r 'in' k" := (res_bind r (fun x => k))
  (at level 10, x name, r at level 100, k at level 200).

(** ** The node model *)

(** Modelled from the spec: the class [NittaNode]
    ([components/common/nitta_node.py]) is not among the sources.  The record
    has the attributes the two modules read: identity, decision tag, score,
    terminality and the kind-dependent parameter payload. *)
Record NittaNode : Type := mkNode {
  sid : string;
  decision_tag : string;
  score : Z;
  is_terminal : bool;
  parameters : PyVal
}.

Module NodeConverting.

Definition _SINGLE_BIND_DECISION_TAG : string := "SingleBindView".
Definition _GROUP_BIND_DECISION_TAG : string := "GroupBindView".
Definition _BIND_DECISION_TAGS : list string :=
  [_SINGLE_BIND_DECISION_TAG; _GROUP_BIND_DECISION_TAG].
Definition _DATAFLOW_DECISION_TAGS : list string := ["DataflowDecisionView"].

(** [x in xs] on a list of strings *)
Definition py_in (x : string) (xs : list string) : bool :=
  existsb (String.eqb x) xs.

(** The integer a value contributes to [0 + v]: ints, and bools as 0/1. *)
Definition py_num (v : PyVal) : option Z :=
  match v with
  | PInt z => Some z
  | PBool b => Some (Z.b2z b)
  | _ => None
  end.

(** The loop of the built-in [sum]: [acc = acc + v] for every item, a
    [TypeError] at the first item that is not a number. *)
Fixpoint sum_from (acc : Z) (xs : list PyVal) : Res Z :=
  match xs with
  | [] => Ok acc
  | v :: rest =>
      match py_num v with
      | Some z => sum_from (acc + z) rest
      | None => Raise TypeError
      end
  end.

(** [sum(v)]: iterates [v] starting from 0.  A list yields its items, a
    string its characters and a dict its keys (both strings, so only the
    empty ones sum); the other values are not iterable. *)
Definition py_sum (v : PyVal) : Res Z :=
  match v with
  | PList xs => sum_from 0 xs
  | PStr s => if String.eqb s "" then Ok 0 else Raise TypeError
  | PDict m => if bool_decide (dom m =@{gset string} ∅) then Ok 0 else Raise TypeError
  | PNone | PBool _ | PInt _ => Raise TypeError
  end.

(** [d[k]] *)
Definition dict_getitem (d : gmap string PyVal) (k : string) : Res PyVal :=
  match d !! k with
  | Some v => Ok v
  | None => Raise KeyError
  end.

(** [del d[k]] *)
Definition dict_delitem (d : gmap string PyVal) (k : string)
  : Res (gmap string PyVal) :=
  match d !! k with
  | Some _ => Ok (delete k d)
  | None => Raise KeyError
  end.

Definition _extract_params_dict (node : NittaNode) : Res (gmap string PyVal) :=
  if py_in (decision_tag node) (_DATAFLOW_DECISION_TAGS ++ _BIND_DECISION_TAGS)
  then
    match parameters node with
    | PDict params =>
        let result := params in
        if py_in (decision_tag node) _DATAFLOW_DECISION_TAGS then
          let? inputs := dict_getitem result "pNotTransferableInputs" in
          let? total := py_sum inputs in
          Ok (<["pNotTransferableInputs" := PInt total]> result)
        else if py_in (decision_tag node) _BIND_DECISION_TAGS then
          let? result := dict_delitem result "tag" in
          Ok result
        else Ok result
    | _ => Raise AssertionError
    end
  else if String.eqb (decision_tag node) "RootView" then Ok ∅
  else Ok {["pRefactoringType" := PStr (decision_tag node)]}.

(** [result[k] += 1] on the counters *)
Definition incr (k : string) (result : gmap string Z) : gmap string Z :=
  <[k := result !!! k + 1]> result.

Definition alt_init : gmap string Z :=
  <["alt_refactorings" := 0]>
    (<["alt_dataflows" := 0]>
      (<["alt_group_bindings" := 0]>
        (<["alt_bindings" := 0]> ∅))).

(** One round of the loop over the siblings. *)
Definition alt_step (node : NittaNode) (result : gmap string Z)
    (sibling : NittaNode) : gmap string Z :=
  if String.eqb (sid sibling) (sid node) then result
  else if String.eqb (decision_tag sibling) _SINGLE_BIND_DECISION_TAG
  then incr "alt_bindings" result
  else if String.eqb (decision_tag sibling) _GROUP_BIND_DECISION_TAG
  then incr "alt_group_bindings" result
  else if py_in (decision_tag sibling) _DATAFLOW_DECISION_TAGS
  then incr "alt_dataflows" result
  else incr "alt_refactorings" result.

Definition alt_counts (node : NittaNode) (siblings : list NittaNode)
  : gmap string Z :=
  foldl (alt_step node) alt_init siblings.

Definition _extract_alternative_siblings_dict (node : NittaNode)
    (siblings : list NittaNode) : gmap string PyVal :=
  PInt <$> alt_counts node siblings.

(** [example: str | None] as a value *)
Definition py_opt_str (o : option string) : PyVal :=
  match o with
  | Some s => PStr s
  | None => PNone
  end.

(** The explicit keyword arguments of the [dict(...)] call. *)
Definition base_fields (node : NittaNode) (example : option string)
  : gmap string PyVal :=
  <["is_terminal" := PBool (is_terminal node)]>
    (<["old_score" := PInt (score node)]>
      (<["tag" := PStr (decision_tag node)]>
        (<["sid" := PStr (sid node)]>
          (<["example" := py_opt_str example]> ∅)))).

(** Merging a [**mapping] into the keyword arguments collected so far: a
    key given twice is a [TypeError] (multiple values for a keyword
    argument). *)
Definition kw_merge (acc d : gmap string PyVal) : Res (gmap string PyVal) :=
  if bool_decide (dom acc ##@{gset string} dom d) then Ok (acc ∪ d) else Raise TypeError.

Definition nitta_node_to_df_dict (node : NittaNode)
    (siblings : list NittaNode) (example : option string)
  : Res (gmap string PyVal) :=
  let kw := base_fields node example in
  let? kw := kw_merge kw (_extract_alternative_siblings_dict node siblings) in
  let? params := _extract_params_dict node in
  kw_merge kw params.

(** *** Notions used to state the properties of the extractor *)

(** The keys of the explicit keyword arguments and of the four counters. *)
Definition base_keys : gset string :=
  {["example"; "sid"; "tag"; "old_score"; "is_terminal"]}.

Definition alt_keys : gset string :=
  {["alt_bindings"; "alt_group_bindings"; "alt_dataflows"; "alt_refactorings"]}.

Definition reserved_keys : gset string := base_keys ∪ alt_keys.

(** The decision tags with a meaning of their own; every other tag is a
    refactoring. *)
Definition known_tags : list string :=
  _DATAFLOW_DECISION_TAGS ++ _BIND_DECISION_TAGS ++ ["RootView"].

(** The counter a sibling with decision tag [tag] belongs to. *)
Definition bucket_of (tag : string) : string :=
  if String.eqb tag "SingleBindView" then "alt_bindings"
  else if String.eqb tag "GroupBindView" then "alt_group_bindings"
  else if String.eqb tag "DataflowDecisionView" then "alt_dataflows"
  else "alt_refactorings".

(** The siblings that are someone else than [node]. *)
Definition others (node : NittaNode) (siblings : list NittaNode)
  : list NittaNode :=
  filter (fun s => sid s ≠ sid node) siblings.

(** How many of the siblings other than [node] belong to counter [k]. *)
Definition alternatives (k : string) (node : NittaNode)
    (siblings : list NittaNode) : Z :=
  Z.of_nat
    (length (filter (fun s => bucket_of (decision_tag s) = k)
               (others node siblings))).

(** What one sibling adds to counter [k]. *)
Definition weight (k : string) (node sibling : NittaNode) : Z :=
  if decide (sid sibling ≠ sid node) then
    if decide (bucket_of (decision_tag sibling) = k) then 1 else 0
  else 0.

(** The row made of the explicit fields, the four counters and the
    parameter fields [params]. *)
Definition row_of (node : NittaNode) (siblings : list NittaNode)
    (example : option string) (params : gmap string PyVal)
  : gmap string PyVal :=
  base_fields node example
  ∪ _extract_alternative_siblings_dict node siblings
  ∪ params.

(** The four counters as a dict. *)
Definition counters (a b c d : Z) : gmap string PyVal :=
  <["alt_bindings" := PInt a]>
    (<["alt_group_bindings" := PInt b]>
      (<["alt_dataflows" := PInt c]>
        (<["alt_refactorings" := PInt d]> ∅))).

(** [node] with another parameter payload. *)
Definition with_parameters (node : NittaNode) (p : PyVal) : NittaNode :=
  mkNode (sid node) (decision_tag node) (score node) (is_terminal node) p.

(** The items of a sequence as integers, when all of them are numbers. *)
Definition as_numbers (xs : list PyVal) : option (list Z) :=
  mapM py_num xs.

Definition total (zs : list Z) : Z := foldr Z.add 0 zs.

(** *** Sample nodes *)

Definition sample_root : NittaNode :=
  mkNode "-" "RootView" 1010 false (PDict ∅).

Definition sample_bind : NittaNode :=
  mkNode "-0" "SingleBindView" 1032 false
    (PDict (<["tag" := PStr "BindMetrics"]> (<["pCritical" := PBool false]> ∅))).

Definition sample_bind_untagged : NittaNode :=
  mkNode "-0" "SingleBindView" 1032 false
    (PDict (<["pCritical" := PBool false]> ∅)).

Definition sample_dataflow : NittaNode :=
  mkNode "-1" "DataflowDecisionView" 1020 false
    (PDict (<["pNotTransferableInputs" := PList [PInt 1; PInt 0; PInt 2]]>
              (<["pWaitTime" := PInt 3]> ∅))).

Definition sample_dataflow_tagged : NittaNode :=
  mkNode "-1" "DataflowDecisionView" 1020 false
    (PDict (<["tag" := PStr "DataflowMetrics"]>
              (<["pNotTransferableInputs" := PList [PInt 1; PInt 0; PInt 2]]>
                 ∅))).

Definition sample_refactoring : NittaNode :=
  mkNode "-2" "BreakLoopView" 2000 true PNone.

(** *** Further notions *)

(** What the loop over the siblings reads of a sibling. *)
Definition id_and_tag (s : NittaNode) : string * string :=
  (sid s, decision_tag s).

(** The dict that [test_node_to_train_df_dict]
    ([tests/test_node_json_conversion.py]) compares a row with. *)
Definition test_expected_row : gmap string PyVal :=
  <["alt_bindings" := PInt 1]>
    (<["alt_dataflows" := PInt 0]>
      (<["alt_refactorings" := PInt 0]>
        (<["example" := PStr "test"]>
          (<["is_terminal" := PBool false]>
            (<["old_score" := PInt 1010]>
              (<["sid" := PStr "-"]>
                (<["tag" := PStr "RootView"]> ∅))))))).

(** A Dataflow node whose inputs do not sum to their number. *)
Definition sample_dataflow_weighted : NittaNode :=
  mkNode "-1" "DataflowDecisionView" 1020 false
    (PDict (<["pNotTransferableInputs" := PList [PInt 5; PInt 0; PInt 2]]>
              (<["pWaitTime" := PInt 3]> ∅))).

(** Sample nodes with a payload that breaks the row. *)
Definition sample_dataflow_no_inputs : NittaNode :=
  mkNode "-1" "DataflowDecisionView" 1020 false
    (PDict (<["pWaitTime" := PInt 3]> ∅)).

Definition sample_dataflow_flags : NittaNode :=
  mkNode "-1" "DataflowDecisionView" 1020 false
    (PDict (<["pNotTransferableInputs" :=
                PList [PBool true; PBool false; PBool true]]> ∅)).

Definition sample_bind_clash : NittaNode :=
  mkNode "-0" "GroupBindView" 1032 false
    (PDict (<["tag" := PStr "GroupBindMetrics"]>
              (<["sid" := PStr "inner"]> ∅))).

End NodeConverting.

(** ** The sampling driver and the crawl orchestrator *)

Module DataCrawling.

Abbreviation Dict := (gmap string PyVal).
Abbreviation Path := string.

(** [CrawlConfig = Dict[Path, dict]]: the items in insertion order. *)
Abbreviation CrawlConfig := (list (Path * Dict)).

(** Modelled from the spec: the dataclass [SamplingResult]
    ([tree_sampling/result_processing.py]) is not among the sources.  It
    holds the accumulated rows and the derived statistics; [stats] is the
    statistics dataclass seen through [asdict]. *)
Record SamplingResult : Type := mkSamplingResult {
  rows : list Dict;
  stats : Dict
}.

(** Modelled from the spec: the coroutine [run_synthesis_tree_sampling]
    ([tree_sampling/tree_sampling.py]) is not among the sources.  Seen from
    the driver, one call is a finite sequence of rows appended to the
    accumulator it was handed, ended by a normal return or by an exception. *)
Inductive SamplerRun : Type :=
  | Returns
  | Appends (row : Dict) (next : SamplerRun)
  | Raises (e : PyExc).

Inductive Level : Type := INFO | ERROR.

Inductive LogMsg : Type :=
  | StartingExample (example : Path)
  | SourceNotFound (example : Path)
  | InterruptedByUser
  | UnexpectedError (e : PyExc)
  | UsingDefaultConfig
  | CrawlingFrom (n : nat) (examples : list Path)
  | Processing (example : Path) (i n : nat)
  | DoneSummary (n : nat).

(** What the two functions do to the outside world. *)
Inductive Event : Type :=
  | EvLog (lvl : Level) (msg : LogMsg)
  | EvSampling (example : Path) (runner_kwargs : Dict)
  | EvProcessAndSave (example : Path) (results : list Dict) (data_dir : PyVal)
  | EvSaveSummary (dicts : list Dict) (data_dir : PyVal) (suffix what : string).

(** The state the code runs in: the list objects that are alive (a list is
    passed by reference) and the effects performed so far, oldest first. *)
Record World : Type := mkWorld {
  heap : gmap nat (list Dict);
  trace : list Event
}.

(** A computation changes the world and returns or raises; what was done
    before an exception stays done. *)
Definition M (A : Type) : Type := World → Res A * World.

Definition ret {A} (a : A) : M A := fun w => (Ok a, w).

Definition raise {A} (e : PyExc) : M A := fun w => (Raise e, w).

Definition bind {A B} (m : M A) (f : A → M B) : M B :=
  fun w =>
    match m w with
    | (Ok a, w') => f a w'
    | (Raise e, w') => (Raise e, w')
    end.

Notation "x <- m ;; k" := (bind m (fun x => k))
  (at level 100, m at next level, right associativity).
Notation "m ;; k" := (bind m (fun _ => k))
  (at level 100, right associativity).

Definition lift {A} (r : Res A) : M A := fun w => (r, w).

Definition emit (ev : Event) : M unit :=
  fun w => (Ok tt, mkWorld (heap w) (trace w ++ [ev])).

Definition log (lvl : Level) (msg : LogMsg) : M unit := emit (EvLog lvl msg).

(** [[]]: a new list object *)
Definition new_list : M nat :=
  fun w =>
    let l := fresh (dom (heap w)) in
    (Ok l, mkWorld (<[l := []]> (heap w)) (trace w)).

(** [l.append(row)] *)
Definition list_append (l : nat) (row : Dict) : M unit :=
  fun w => (Ok tt, mkWorld (alter (fun xs => xs ++ [row]) l (heap w)) (trace w)).

(** the items of the list object [l] *)
Definition list_items (l : nat) : M (list Dict) :=
  fun w => (Ok (heap w !!! l), w).

(** [try: body / except KeyboardInterrupt: on_interrupt /
     except Exception: on_exception] *)
Definition try_except (body : M unit) (on_interrupt : M unit)
    (on_exception : PyExc → M unit) : M unit :=
  fun w =>
    match body w with
    | (Ok tt, w') => (Ok tt, w')
    | (Raise KeyboardInterrupt, w') => on_interrupt w'
    | (Raise e, w') =>
        if is_Exception e then on_exception e w' else (Raise e, w')
    end.

(** The sampler at work on the accumulator [results_accum]. *)
Fixpoint play (results_accum : nat) (run : SamplerRun) : M unit :=
  match run with
  | Returns => ret tt
  | Appends row next =>
      list_append results_accum row ;; play results_accum next
  | Raises e => raise e
  end.

(** *** Notions used to state the properties of the driver *)

(** The rows a run of the sampler appends before it ends. *)
Fixpoint appended (run : SamplerRun) : list Dict :=
  match run with
  | Returns => []
  | Appends row next => row :: appended next
  | Raises _ => []
  end.

(** How a run of the sampler ends: the exception raised, if any. *)
Fixpoint ending (run : SamplerRun) : option PyExc :=
  match run with
  | Returns => None
  | Appends _ next => ending next
  | Raises e => Some e
  end.

(** The exceptions the two [except] clauses of the driver catch. *)
Definition caught (e : PyExc) : bool :=
  match e with
  | KeyboardInterrupt => true
  | _ => is_Exception e
  end.

(** The events that persist a summary, and those that start a sampler. *)
Definition is_summary_save (ev : Event) : bool :=
  match ev with
  | EvSaveSummary _ _ _ _ => true
  | _ => false
  end.

Definition is_sampling (ev : Event) : bool :=
  match ev with
  | EvSampling _ _ => true
  | _ => false
  end.

(** What the [except] clause that catches [e] logs. *)
Definition handler_events (e : PyExc) : list Event :=
  match e with
  | KeyboardInterrupt => [EvLog INFO InterruptedByUser]
  | _ => [EvLog ERROR (UnexpectedError e)]
  end.

(** The collaborators of the two functions that are not among the sources:
    constants of [consts.py], the file system behind [pathlib.Path], the tree
    sampler and the two persistence helpers. *)
Class Env : Type := mkEnv {
  DATA_DIR : Path;
  EXAMPLES_DIR : Path;
  path_exists : Path → bool;
  path_name : Path → string;
  run_synthesis_tree_sampling : Path → Dict → SamplerRun;
  process_and_save_sampling_results :
    Path → list Dict → PyVal → Res (option SamplingResult);
  save_dicts_list_to_csv_with_timestamp :
    list Dict → PyVal → string → string → Res unit
}.

(** The same collaborators with another examples directory, the constant
    the default configuration is built from. *)
Definition with_examples_dir (env : Env) (dir : Path) : Env :=
  mkEnv DATA_DIR dir path_exists path_name run_synthesis_tree_sampling
    process_and_save_sampling_results save_dicts_list_to_csv_with_timestamp.

Section Crawling.
Context `{Env}.

(** [await run_synthesis_tree_sampling(example, results_accum=results,
    **runner_kwargs)]: a [results_accum] among [runner_kwargs] is a second
    value for that keyword, a [TypeError] before the sampler starts. *)
Definition call_run_synthesis_tree_sampling (example : Path) (results : nat)
    (runner_kwargs : Dict) : M unit :=
  if bool_decide ("results_accum" ∈@{gset string} dom runner_kwargs) then raise TypeError
  else
    emit (EvSampling example runner_kwargs) ;;
    play results (run_synthesis_tree_sampling example runner_kwargs).

Definition crawl_data_from_example (example : Path) (data_dir : PyVal)
    (runner_kwargs : Dict) : M (option SamplingResult) :=
  log INFO (StartingExample example) ;;
  if negb (path_exists example) then
    log ERROR (SourceNotFound example) ;;
    ret None
  else
    results <- new_list ;;
    try_except
      (call_run_synthesis_tree_sampling example results runner_kwargs)
      (log INFO InterruptedByUser)
      (fun e => log ERROR (UnexpectedError e)) ;;
    gathered <- list_items results ;;
    emit (EvProcessAndSave example gathered data_dir) ;;
    lift (process_and_save_sampling_results example gathered data_dir).

(** [dict(n_samples_per_batch=b, n_samples=n)] *)
Definition sampling_kwargs (b n : Z) : Dict :=
  <["n_samples" := PInt n]> (<["n_samples_per_batch" := PInt b]> ∅).

(** [dir / name] *)
Definition path_join (dir : Path) (name : string) : Path :=
  dir +:+ "/" +:+ name.

Definition MANUAL_FULL_CRAWL_CONFIG : CrawlConfig :=
  [ (path_join EXAMPLES_DIR "spi3.lua", sampling_kwargs 149 39757);
    (path_join EXAMPLES_DIR "sum.lua", sampling_kwargs 131 28014);
    (path_join EXAMPLES_DIR "constantFolding.lua", sampling_kwargs 128 26607);
    (path_join EXAMPLES_DIR "pid.lua", sampling_kwargs 72 14356);
    (path_join EXAMPLES_DIR "teacup.lua", sampling_kwargs 88 16559);
    (path_join EXAMPLES_DIR "generated/matrix-mult-1x3.lua",
       sampling_kwargs 98 18219);
    (path_join EXAMPLES_DIR "generated/cyclic3.lua", sampling_kwargs 95 17677);
    (path_join EXAMPLES_DIR "generated/cyclic4.lua", sampling_kwargs 63 13345);
    (path_join EXAMPLES_DIR "generated/cyclic5.lua", sampling_kwargs 59 12933);
    (path_join EXAMPLES_DIR "generated/vars.lua", sampling_kwargs 27 10452) ].

(** [crawl_data_from_example(example, **kwargs)]: the keywords are bound to
    the signature [(example, data_dir=DATA_DIR, **runner_kwargs)].  A second
    value for [example] is a [TypeError]; a [data_dir] among the keywords
    replaces the default; the rest goes to the sampler. *)
Definition call_crawl_data_from_example (example : Path) (kwargs : Dict)
  : M (option SamplingResult) :=
  if bool_decide ("example" ∈@{gset string} dom kwargs) then raise TypeError
  else
    crawl_data_from_example example
      (default (PStr DATA_DIR) (kwargs !! "data_dir"))
      (delete "data_dir" kwargs).

(** [{"example": example.name, **asdict(sampling_result.stats)}]: in a dict
    display a later key replaces an earlier one. *)
Definition summary_entry (example : Path) (sampling_result : SamplingResult)
  : Dict :=
  stats sampling_result ∪ {["example" := PStr (path_name example)]}.

(** The loop over [enumerate(crawl_config.items())]; [n] is
    [len(crawl_config)] and [i] the index of the first remaining item. *)
Fixpoint crawl_loop (n i : nat) (items : CrawlConfig)
    (summary_stats : list Dict) : M (list Dict) :=
  match items with
  | [] => ret summary_stats
  | (example, kwargs) :: rest =>
      log INFO (Processing example (i + 1) n) ;;
      sampling_result <- call_crawl_data_from_example example kwargs ;;
      crawl_loop n (S i) rest
        match sampling_result with
        | Some r => summary_stats ++ [summary_entry example r]
        | None => summary_stats
        end
  end.

Definition crawl_data_from_many_examples (crawl_config : option CrawlConfig)
  : M unit :=
  crawl_config <-
    match crawl_config with
    | None => log INFO UsingDefaultConfig ;; ret MANUAL_FULL_CRAWL_CONFIG
    | Some c => ret c
    end ;;
  log INFO (CrawlingFrom (length crawl_config) (crawl_config.*1)) ;;
  summary_stats <- crawl_loop (length crawl_config) 0 crawl_config [] ;;
  log INFO (DoneSummary (length summary_stats)) ;;
  emit (EvSaveSummary summary_stats (PStr DATA_DIR) "_crawling_summary"
          "crawling summary") ;;
  lift (save_dicts_list_to_csv_with_timestamp summary_stats (PStr DATA_DIR)
          "_crawling_summary" "crawling summary").

(** *** The two functions seen from outside *)

(** The sampler call of the driver as a run: the keyword clash is a run that
    raises at once. *)
Definition sampling_call (example : Path) (runner_kwargs : Dict) : SamplerRun :=
  if bool_decide ("results_accum" ∈@{gset string} dom runner_kwargs)
  then Raises TypeError
  else run_synthesis_tree_sampling example runner_kwargs.

Definition sampling_events (example : Path) (runner_kwargs : Dict)
  : list Event :=
  if bool_decide ("results_accum" ∈@{gset string} dom runner_kwargs) then []
  else [EvSampling example runner_kwargs].

(** The outcome of [crawl_data_from_example] and the effects it performs. *)
Definition example_result (example : Path) (data_dir : PyVal)
    (runner_kwargs : Dict) : Res (option SamplingResult) :=
  if path_exists example then
    let run := sampling_call example runner_kwargs in
    match ending run with
    | Some e =>
        if caught e
        then process_and_save_sampling_results example (appended run) data_dir
        else Raise e
    | None =>
        process_and_save_sampling_results example (appended run) data_dir
    end
  else Ok None.

Definition example_events (example : Path) (data_dir : PyVal)
    (runner_kwargs : Dict) : list Event :=
  EvLog INFO (StartingExample example) ::
  if path_exists example then
    let run := sampling_call example runner_kwargs in
    sampling_events example runner_kwargs ++
    match ending run with
    | Some e =>
        if caught e
        then handler_events e
             ++ [EvProcessAndSave example (appended run) data_dir]
        else []
    | None => [EvProcessAndSave example (appended run) data_dir]
    end
  else [EvLog ERROR (SourceNotFound example)].

(** The same for the call [crawl_data_from_example(example, **kwargs)]. *)
Definition call_result (example : Path) (kwargs : Dict)
  : Res (option SamplingResult) :=
  if bool_decide ("example" ∈@{gset string} dom kwargs) then Raise TypeError
  else example_result example
         (default (PStr DATA_DIR) (kwargs !! "data_dir"))
         (delete "data_dir" kwargs).

Definition call_events (example : Path) (kwargs : Dict) : list Event :=
  if bool_decide ("example" ∈@{gset string} dom kwargs) then []
  else example_events example
         (default (PStr DATA_DIR) (kwargs !! "data_dir"))
         (delete "data_dir" kwargs).

(** The outcome of the loop over the items of a configuration and its
    effects; the loop ends at the first call that raises. *)
Fixpoint loop_result (items : CrawlConfig) (summary_stats : list Dict)
  : Res (list Dict) :=
  match items with
  | [] => Ok summary_stats
  | (example, kwargs) :: rest =>
      match call_result example kwargs with
      | Ok (Some r) =>
          loop_result rest (summary_stats ++ [summary_entry example r])
      | Ok None => loop_result rest summary_stats
      | Raise e => Raise e
      end
  end.

Fixpoint loop_events (n i : nat) (items : CrawlConfig) : list Event :=
  match items with
  | [] => []
  | (example, kwargs) :: rest =>
      EvLog INFO (Processing example (i + 1) n) ::
      call_events example kwargs ++
      match call_result example kwargs with
      | Ok _ => loop_events n (S i) rest
      | Raise _ => []
      end
  end.

(** The summary line of one item: none when the call gives no result. *)
Definition summary_line (item : Path * Dict) : option Dict :=
  match call_result item.1 item.2 with
  | Ok (Some r) => Some (summary_entry item.1 r)
  | _ => None
  end.

(** The effects of one item that is processed to its end; [i] counts from
    0. *)
Definition item_events (n i : nat) (item : Path * Dict) : list Event :=
  EvLog INFO (Processing item.1 (i + 1) n) :: call_events item.1 item.2.

(** The call for an item returns, in whatever world it is made. *)
Definition returns (item : Path * Dict) : Prop :=
  ∀ w, ∃ r, (call_crawl_data_from_example item.1 item.2 w).1 = Ok r.

(** The call for an item gives the result [r]. *)
Definition yields (item : Path * Dict) (r : SamplingResult) : Prop :=
  ∀ w, (call_crawl_data_from_example item.1 item.2 w).1 = Ok (Some r).

(** The effects of persisting the summary. *)
Definition summary_events (summary_stats : list Dict) : list Event :=
  [ EvLog INFO (DoneSummary (length summary_stats));
    EvSaveSummary summary_stats (PStr DATA_DIR) "_crawling_summary"
      "crawling summary" ].

End Crawling.

(** *** A sample environment *)

Definition sample_row (n : Z) : Dict := {["sid" := PInt n]}.

(** One source exists; its sampler appends two rows and is then interrupted;
    processing keeps the rows and counts them. *)
Definition sample_env : Env := {|
  DATA_DIR := "data";
  EXAMPLES_DIR := "examples";
  path_exists := fun p => String.eqb p "examples/sum.lua";
  path_name := fun p => if String.eqb p "examples/sum.lua" then "sum.lua" else p;
  run_synthesis_tree_sampling := fun _ _ =>
    Appends (sample_row 1) (Appends (sample_row 2) (Raises KeyboardInterrupt));
  process_and_save_sampling_results := fun _ results _ =>
    Ok (Some (mkSamplingResult results
                {["n_rows" := PInt (Z.of_nat (length results))]}));
  save_dicts_list_to_csv_with_timestamp := fun _ _ _ _ => Ok tt
|}.

Definition empty_world : World := mkWorld ∅ [].

(** *** Further notions *)

(** The events that hand rows over for processing. *)
Definition is_processing (ev : Event) : bool :=
  match ev with
  | EvProcessAndSave _ _ _ => true
  | _ => false
  end.

(** What an event of a call for [example] with [kwargs] may be: the sampler
    is started for that example without [data_dir], and processing is given
    that example with the [data_dir] keyword, or [DATA_DIR] when there is
    none; no summary is persisted. *)
Definition event_of_call `{Env} (example : Path) (kwargs : Dict)
    (ev : Event) : Prop :=
  match ev with
  | EvLog _ _ => True
  | EvSampling example' runner_kwargs =>
      example' = example ∧ runner_kwargs = delete "data_dir" kwargs
  | EvProcessAndSave example' _ data_dir =>
      example' = example
      ∧ data_dir = default (PStr DATA_DIR) (kwargs !! "data_dir")
  | EvSaveSummary _ _ _ _ => False
  end.

(** The sample environment with another sampler run and, possibly, a
    processing step that fails. *)
Definition sample_env_with (run : SamplerRun) (failure : option PyExc) : Env :=
  {|
    DATA_DIR := "data";
    EXAMPLES_DIR := "examples";
    path_exists := fun p => String.eqb p "examples/sum.lua";
    path_name := fun p => p;
    run_synthesis_tree_sampling := fun _ _ => run;
    process_and_save_sampling_results := fun _ results _ =>
      match failure with
      | Some e => Raise e
      | None => Ok (Some (mkSamplingResult results ∅))
      end;
    save_dicts_list_to_csv_with_timestamp := fun _ _ _ _ => Ok tt
  |}.

End DataCrawling.

(** * Properties of the feature extractor *)

Module NodeConvertingFacts.
Import NodeConverting.

(** ** Membership tests on tags *)

Lemma py_in_true (x : string) (xs : list string) :
  py_in x xs = true ↔ x ∈ xs.
Proof.
  unfold py_in. rewrite existsb_exists. split.
  - intros (y & Hy & Heq). apply String.eqb_eq in Heq. subst y.
    by apply list_elem_of_In.
  - intros Hx. exists x. split; [by apply list_elem_of_In | apply String.eqb_refl].
Qed.

Lemma py_in_false (x : string) (xs : list string) :
  py_in x xs = false ↔ x ∉ xs.
Proof.
  rewrite <- py_in_true. destruct (py_in x xs); split; congruence.
Qed.

Lemma unknown_tag_cases (tag : string) :
  tag ∉ known_tags →
  py_in tag (_DATAFLOW_DECISION_TAGS ++ _BIND_DECISION_TAGS) = false
  ∧ String.eqb tag "RootView" = false.
Proof.
  intros Hun. split.
  - apply py_in_false. intros Hin. apply Hun. unfold known_tags.
    rewrite app_assoc. apply elem_of_app. by left.
  - apply String.eqb_neq. intros ->. apply Hun. unfold known_tags.
    rewrite app_assoc. apply elem_of_app. right. apply list_elem_of_singleton.
    reflexivity.
Qed.

(** ** The keys of the parts of a row *)

Lemma dom_base_fields (node : NittaNode) (example : option string) :
  dom (base_fields node example) = base_keys.
Proof.
  unfold base_fields, base_keys. rewrite !dom_insert_L, dom_empty_L.
  set_solver.
Qed.

Lemma base_alt_disjoint : base_keys ## alt_keys.
Proof. apply (bool_decide_unpack _). vm_compute. reflexivity. Qed.

Lemma dom_incr (k : string) (result : gmap string Z) :
  k ∈ dom result → dom (incr k result) = dom result.
Proof.
  intros Hk. unfold incr. rewrite dom_insert_L.
  apply subseteq_union_1_L. by apply singleton_subseteq_l.
Qed.

Lemma dom_alt_step (node sibling : NittaNode) (result : gmap string Z) :
  alt_keys ⊆ dom result → dom (alt_step node result sibling) = dom result.
Proof.
  intros Hsub. unfold alt_step.
  destruct (sid sibling =? sid node)%string; [done|].
  destruct (decision_tag sibling =? _)%string;
    [apply dom_incr, Hsub; unfold alt_keys; set_solver|].
  destruct (decision_tag sibling =? _)%string;
    [apply dom_incr, Hsub; unfold alt_keys; set_solver|].
  destruct (py_in _ _); apply dom_incr, Hsub; unfold alt_keys; set_solver.
Qed.

Lemma dom_alt_loop (node : NittaNode) (siblings : list NittaNode) :
  ∀ result, alt_keys ⊆ dom result →
    dom (foldl (alt_step node) result siblings) = dom result.
Proof.
  induction siblings as [|s rest IH]; intros result Hsub; simpl.
  - reflexivity.
  - rewrite IH; rewrite dom_alt_step; auto.
Qed.

Lemma dom_alt_init : dom alt_init = alt_keys.
Proof.
  unfold alt_init, alt_keys. rewrite !dom_insert_L, dom_empty_L. set_solver.
Qed.

Lemma dom_alt_counts (node : NittaNode) (siblings : list NittaNode) :
  dom (alt_counts node siblings) = alt_keys.
Proof.
  unfold alt_counts. rewrite dom_alt_loop; rewrite dom_alt_init; done.
Qed.

Lemma dom_alt_dict (node : NittaNode) (siblings : list NittaNode) :
  dom (_extract_alternative_siblings_dict node siblings) = alt_keys.
Proof.
  unfold _extract_alternative_siblings_dict. rewrite dom_fmap_L.
  apply dom_alt_counts.
Qed.

(** ** The counters *)

Lemma incr_lookup_total (k k' : string) (result : gmap string Z) :
  incr k result !!! k' = result !!! k' + (if decide (k = k') then 1 else 0).
Proof.
  unfold incr. destruct (decide (k = k')) as [->|Hne].
  - rewrite lookup_total_insert_eq. reflexivity.
  - rewrite lookup_total_insert_ne by done. lia.
Qed.

Lemma alt_step_incr (node sibling : NittaNode) (result : gmap string Z) :
  sid sibling ≠ sid node →
  alt_step node result sibling = incr (bucket_of (decision_tag sibling)) result.
Proof.
  intros Hne. unfold alt_step, bucket_of, py_in, _DATAFLOW_DECISION_TAGS,
    _SINGLE_BIND_DECISION_TAG, _GROUP_BIND_DECISION_TAG.
  apply String.eqb_neq in Hne. rewrite Hne. simpl.
  rewrite orb_false_r.
  destruct (decision_tag sibling =? "SingleBindView")%string; [done|].
  destruct (decision_tag sibling =? "GroupBindView")%string; [done|].
  by destruct (decision_tag sibling =? "DataflowDecisionView")%string.
Qed.

Lemma alt_step_skip (node sibling : NittaNode) (result : gmap string Z) :
  sid sibling = sid node → alt_step node result sibling = result.
Proof.
  intros Heq. unfold alt_step. apply String.eqb_eq in Heq. by rewrite Heq.
Qed.

Lemma alt_step_lookup_total (k : string) (node sibling : NittaNode)
    (result : gmap string Z) :
  alt_step node result sibling !!! k = result !!! k + weight k node sibling.
Proof.
  unfold weight. destruct (decide (sid sibling ≠ sid node)) as [Hne|Heq].
  - rewrite alt_step_incr by done. apply incr_lookup_total.
  - apply dec_stable in Heq. rewrite alt_step_skip by done. lia.
Qed.

Lemma alternatives_cons (k : string) (node s : NittaNode)
    (rest : list NittaNode) :
  alternatives k node (s :: rest) = weight k node s + alternatives k node rest.
Proof.
  unfold alternatives, others, weight. rewrite filter_cons.
  destruct (decide (sid s ≠ sid node)); [|lia].
  rewrite filter_cons.
  destruct (decide (bucket_of (decision_tag s) = k)); simpl; lia.
Qed.

Lemma alt_loop_lookup_total (k : string) (node : NittaNode)
    (siblings : list NittaNode) :
  ∀ result,
    foldl (alt_step node) result siblings !!! k
    = result !!! k + alternatives k node siblings.
Proof.
  induction siblings as [|s rest IH]; intros result.
  - unfold alternatives. simpl. lia.
  - simpl. rewrite IH, alt_step_lookup_total, alternatives_cons. lia.
Qed.

Lemma alt_counts_lookup (k : string) (node : NittaNode)
    (siblings : list NittaNode) :
  k ∈ alt_keys →
  alt_counts node siblings !! k = Some (alternatives k node siblings).
Proof.
  intros Hk. pose proof Hk as Hdom.
  rewrite <- (dom_alt_counts node siblings) in Hdom.
  apply elem_of_dom in Hdom as [z Hz].
  rewrite Hz. f_equal. apply lookup_total_correct in Hz. rewrite <- Hz.
  unfold alt_counts. rewrite alt_loop_lookup_total.
  assert (alt_init !!! k = 0) as ->; [|lia].
  revert Hk. unfold alt_keys. rewrite !elem_of_union, !elem_of_singleton.
  intros [[[->| ->]| ->]| ->]; reflexivity.
Qed.

Lemma bucket_of_alt_key (tag : string) : bucket_of tag ∈ alt_keys.
Proof.
  unfold bucket_of, alt_keys.
  destruct (tag =? "SingleBindView")%string; [set_solver|].
  destruct (tag =? "GroupBindView")%string; [set_solver|].
  destruct (tag =? "DataflowDecisionView")%string; set_solver.
Qed.

(** Every sibling other than the node sits in exactly one counter. *)
Lemma alternatives_partition (node : NittaNode) (siblings : list NittaNode) :
  alternatives "alt_bindings" node siblings
  + alternatives "alt_group_bindings" node siblings
  + alternatives "alt_dataflows" node siblings
  + alternatives "alt_refactorings" node siblings
  = Z.of_nat (length (others node siblings)).
Proof.
  induction siblings as [|s rest IH].
  - reflexivity.
  - rewrite !alternatives_cons. unfold others in *. rewrite filter_cons.
    unfold weight. destruct (decide (sid s ≠ sid node)); [|lia].
    simpl length. rewrite Nat2Z.inj_succ, <- IH.
    pose proof (bucket_of_alt_key (decision_tag s)) as Hb. revert Hb.
    unfold alt_keys. rewrite !elem_of_union, !elem_of_singleton.
    intros [[[->| ->]| ->]| ->]; repeat case_decide; try congruence; lia.
Qed.

(** ** Building the row *)

Lemma kw_merge_ok (acc d : gmap string PyVal) :
  dom acc ## dom d → kw_merge acc d = Ok (acc ∪ d).
Proof. intros Hd. unfold kw_merge. by rewrite bool_decide_eq_true_2. Qed.

Lemma kw_merge_clash (acc d : gmap string PyVal) :
  ¬ dom acc ## dom d → kw_merge acc d = Raise TypeError.
Proof. intros Hd. unfold kw_merge. by rewrite bool_decide_eq_false_2. Qed.

Lemma dom_base_alt (node : NittaNode) (siblings : list NittaNode)
    (example : option string) :
  dom (base_fields node example
       ∪ _extract_alternative_siblings_dict node siblings) = reserved_keys.
Proof.
  rewrite dom_union_L, dom_base_fields, dom_alt_dict. reflexivity.
Qed.

(** The row once the parameter fields are known. *)
Lemma row_with_params (node : NittaNode) (siblings : list NittaNode)
    (example : option string) (params : gmap string PyVal) :
  _extract_params_dict node = Ok params →
  nitta_node_to_df_dict node siblings example
  = kw_merge (base_fields node example
              ∪ _extract_alternative_siblings_dict node siblings) params.
Proof.
  intros Hp. unfold nitta_node_to_df_dict.
  rewrite kw_merge_ok.
  - simpl. rewrite Hp. reflexivity.
  - rewrite dom_base_fields, dom_alt_dict. apply base_alt_disjoint.
Qed.

Lemma row_params_raise (node : NittaNode) (siblings : list NittaNode)
    (example : option string) (e : PyExc) :
  _extract_params_dict node = Raise e →
  nitta_node_to_df_dict node siblings example = Raise e.
Proof.
  intros Hp. unfold nitta_node_to_df_dict.
  rewrite kw_merge_ok.
  - simpl. rewrite Hp. reflexivity.
  - rewrite dom_base_fields, dom_alt_dict. apply base_alt_disjoint.
Qed.

Lemma row_ok (node : NittaNode) (siblings : list NittaNode)
    (example : option string) (params : gmap string PyVal) :
  _extract_params_dict node = Ok params →
  reserved_keys ## dom params →
  nitta_node_to_df_dict node siblings example
  = Ok (row_of node siblings example params).
Proof.
  intros Hp Hd. rewrite (row_with_params _ _ _ _ Hp).
  apply kw_merge_ok. by rewrite dom_base_alt.
Qed.

Lemma row_clash (node : NittaNode) (siblings : list NittaNode)
    (example : option string) (params : gmap string PyVal) (k : string) :
  _extract_params_dict node = Ok params →
  k ∈ reserved_keys → is_Some (params !! k) →
  nitta_node_to_df_dict node siblings example = Raise TypeError.
Proof.
  intros Hp Hk Hin. rewrite (row_with_params _ _ _ _ Hp).
  apply kw_merge_clash. rewrite dom_base_alt. intros Hd.
  apply (Hd k Hk). by apply elem_of_dom.
Qed.

(** A row, when there is one, is made of the three parts. *)
Lemma row_inv (node : NittaNode) (siblings : list NittaNode)
    (example : option string) (row : gmap string PyVal) :
  nitta_node_to_df_dict node siblings example = Ok row →
  ∃ params, _extract_params_dict node = Ok params
            ∧ reserved_keys ## dom params
            ∧ row = row_of node siblings example params.
Proof.
  intros Hrow. destruct (_extract_params_dict node) as [params|e] eqn:Hp.
  - exists params. split; [reflexivity|].
    rewrite (row_with_params _ _ _ _ Hp) in Hrow. unfold kw_merge in Hrow.
    case_bool_decide as Hd; [|discriminate].
    rewrite dom_base_alt in Hd. split; [done|]. by injection Hrow as <-.
  - rewrite (row_params_raise _ _ _ _ Hp) in Hrow. discriminate.
Qed.

Lemma row_of_lookup_base (node : NittaNode) (siblings : list NittaNode)
    (example : option string) (params : gmap string PyVal) (k : string) :
  k ∈ base_keys →
  row_of node siblings example params !! k = base_fields node example !! k.
Proof.
  intros Hk. rewrite <- (dom_base_fields node example) in Hk.
  apply elem_of_dom in Hk as [v Hv]. rewrite Hv. unfold row_of.
  apply lookup_union_Some_l, lookup_union_Some_l, Hv.
Qed.

Lemma row_of_lookup_alt (node : NittaNode) (siblings : list NittaNode)
    (example : option string) (params : gmap string PyVal) (k : string) :
  k ∈ alt_keys →
  row_of node siblings example params !! k
  = Some (PInt (alternatives k node siblings)).
Proof.
  intros Hk. unfold row_of. apply lookup_union_Some_l.
  rewrite lookup_union_r.
  - unfold _extract_alternative_siblings_dict.
    rewrite lookup_fmap, alt_counts_lookup by done. reflexivity.
  - apply not_elem_of_dom. rewrite dom_base_fields.
    intros Hb. exact (base_alt_disjoint k Hb Hk).
Qed.

Lemma row_of_lookup_params (node : NittaNode) (siblings : list NittaNode)
    (example : option string) (params : gmap string PyVal) (k : string) :
  k ∉ reserved_keys →
  row_of node siblings example params !! k = params !! k.
Proof.
  intros Hk. unfold row_of. apply lookup_union_r.
  apply not_elem_of_dom. by rewrite dom_base_alt.
Qed.

Lemma alt_dict_counters (node : NittaNode) (siblings : list NittaNode) :
  _extract_alternative_siblings_dict node siblings
  = counters (alternatives "alt_bindings" node siblings)
             (alternatives "alt_group_bindings" node siblings)
             (alternatives "alt_dataflows" node siblings)
             (alternatives "alt_refactorings" node siblings).
Proof.
  apply map_eq. intros k. destruct (decide (k ∈ alt_keys)) as [Hk|Hk].
  - unfold _extract_alternative_siblings_dict.
    rewrite lookup_fmap, alt_counts_lookup by done.
    revert Hk. unfold alt_keys. rewrite !elem_of_union, !elem_of_singleton.
    intros [[[->| ->]| ->]| ->]; reflexivity.
  - transitivity (@None PyVal); [|symmetry]; apply not_elem_of_dom.
    + by rewrite dom_alt_dict.
    + unfold counters. rewrite !dom_insert_L, dom_empty_L.
      unfold alt_keys in Hk. set_solver.
Qed.

(** ** The parameter fields, kind by kind *)

Lemma sum_from_numbers (xs : list PyVal) :
  ∀ acc, sum_from acc xs
         = match as_numbers xs with
           | Some zs => Ok (acc + total zs)
           | None => Raise TypeError
           end.
Proof.
  unfold as_numbers. induction xs as [|v rest IH]; intros acc; simpl.
  - f_equal. unfold total. simpl. lia.
  - destruct (py_num v) as [z|]; simpl; [|reflexivity].
    rewrite IH. destruct (mapM py_num rest) as [zs|]; simpl; [|reflexivity].
    f_equal. unfold total. simpl. lia.
Qed.

Lemma extract_dataflow (node : NittaNode) (m : gmap string PyVal) :
  decision_tag node = "DataflowDecisionView" →
  parameters node = PDict m →
  _extract_params_dict node
  = (let? inputs := dict_getitem m "pNotTransferableInputs" in
     let? sum := py_sum inputs in
     Ok (<["pNotTransferableInputs" := PInt sum]> m)).
Proof.
  intros Htag Hpar. unfold _extract_params_dict. rewrite Htag, Hpar.
  reflexivity.
Qed.

Lemma extract_bind (node : NittaNode) (m : gmap string PyVal) :
  decision_tag node ∈ _BIND_DECISION_TAGS →
  parameters node = PDict m →
  _extract_params_dict node = dict_delitem m "tag".
Proof.
  intros Htag Hpar. unfold _extract_params_dict. rewrite Hpar.
  assert (decision_tag node = "SingleBindView"
          ∨ decision_tag node = "GroupBindView") as [-> | ->].
  { unfold _BIND_DECISION_TAGS in Htag.
    apply elem_of_cons in Htag as [?|Htag]; [by left|].
    apply list_elem_of_singleton in Htag. by right. }
  all: simpl; by destruct (dict_delitem m "tag").
Qed.

Lemma extract_not_dict (node : NittaNode) :
  decision_tag node ∈ _DATAFLOW_DECISION_TAGS ++ _BIND_DECISION_TAGS →
  (∀ m, parameters node ≠ PDict m) →
  _extract_params_dict node = Raise AssertionError.
Proof.
  intros Htag Hpar. unfold _extract_params_dict.
  apply py_in_true in Htag. rewrite Htag.
  destruct (parameters node) eqn:E; try reflexivity. by destruct (Hpar m).
Qed.

Lemma extract_root (node : NittaNode) :
  decision_tag node = "RootView" → _extract_params_dict node = Ok ∅.
Proof.
  intros Htag. unfold _extract_params_dict. rewrite Htag. reflexivity.
Qed.

Lemma extract_refactoring (node : NittaNode) :
  decision_tag node ∉ known_tags →
  _extract_params_dict node
  = Ok {["pRefactoringType" := PStr (decision_tag node)]}.
Proof.
  intros Htag. apply unknown_tag_cases in Htag as [Hin Hroot].
  unfold _extract_params_dict. rewrite Hin, Hroot. reflexivity.
Qed.

Lemma reserved_keys_elem (k : string) :
  k ∈ reserved_keys ↔
  k ∈ ["example"; "sid"; "tag"; "old_score"; "is_terminal"; "alt_bindings";
       "alt_group_bindings"; "alt_dataflows"; "alt_refactorings"].
Proof.
  unfold reserved_keys, base_keys, alt_keys.
  rewrite !elem_of_union, !elem_of_singleton, !elem_of_cons, elem_of_nil.
  tauto.
Qed.

Lemma not_reserved (k : string) :
  bool_decide (k ∈ reserved_keys) = false → k ∉ reserved_keys.
Proof. apply bool_decide_eq_false_1. Qed.

(** ** The claims about the extractor *)

(** C4. The four counters of a node are the numbers of siblings, other than
    the node itself (same id), whose tag falls in the single-bind, group-bind,
    dataflow and refactoring bucket (any unknown tag is a refactoring); they
    add up to the number of siblings whose id differs from the node's, and
    every row produced carries these four values. *)
Theorem alternative_counts_sum (node : NittaNode) (siblings : list NittaNode) :
  ∃ a b c d : Z,
    a = alternatives "alt_bindings" node siblings
    ∧ b = alternatives "alt_group_bindings" node siblings
    ∧ c = alternatives "alt_dataflows" node siblings
    ∧ d = alternatives "alt_refactorings" node siblings
    ∧ _extract_alternative_siblings_dict node siblings = counters a b c d
    ∧ a + b + c + d = Z.of_nat (length (others node siblings))
    ∧ ∀ example row,
        nitta_node_to_df_dict node siblings example = Ok row →
        row !! "alt_bindings" = Some (PInt a)
        ∧ row !! "alt_group_bindings" = Some (PInt b)
        ∧ row !! "alt_dataflows" = Some (PInt c)
        ∧ row !! "alt_refactorings" = Some (PInt d).
Proof.
  eexists _, _, _, _. do 4 (split; [reflexivity|]).
  split; [apply alt_dict_counters|].
  split; [apply alternatives_partition|].
  intros example row Hrow.
  apply row_inv in Hrow as (params & _ & _ & ->).
  repeat split; apply row_of_lookup_alt; unfold alt_keys; set_solver.
Qed.

Lemma alternative_counts_sum_witness :
  ∃ a b c d : Z,
    _extract_alternative_siblings_dict sample_bind
      [sample_bind; sample_dataflow; sample_refactoring; sample_root]
    = counters a b c d
    ∧ a + b + c + d = 3.
Proof.
  destruct (alternative_counts_sum sample_bind
              [sample_bind; sample_dataflow; sample_refactoring; sample_root])
    as (a & b & c & d & _ & _ & _ & _ & Hdict & Hsum & _).
  exists a, b, c, d. split; [exact Hdict | exact Hsum].
Defined.

(** C5. A Root node yields exactly the five base fields and the four
    counters, whatever its siblings and its parameters, and no parameter
    field; with score 1010 and one sibling, a SingleBindView, as the only
    entry of the collection with an id other than the node's, the counters
    are 1, 0, 0 and 0. *)
Theorem root_row (node : NittaNode) (siblings : list NittaNode)
    (example : option string) :
  decision_tag node = "RootView" →
  nitta_node_to_df_dict node siblings example
  = Ok (base_fields node example
        ∪ _extract_alternative_siblings_dict node siblings)
  ∧ dom (base_fields node example
         ∪ _extract_alternative_siblings_dict node siblings)
    = base_keys ∪ alt_keys
  ∧ ∀ s, score node = 1010 →
         others node siblings = [s] →
         decision_tag s = "SingleBindView" →
         nitta_node_to_df_dict node siblings example
         = Ok (<["is_terminal" := PBool (is_terminal node)]>
                (<["old_score" := PInt 1010]>
                  (<["tag" := PStr "RootView"]>
                    (<["sid" := PStr (sid node)]>
                      (<["example" := py_opt_str example]> ∅))))
               ∪ counters 1 0 0 0).
Proof.
  intros Htag.
  assert (nitta_node_to_df_dict node siblings example
          = Ok (base_fields node example
                ∪ _extract_alternative_siblings_dict node siblings)) as Hrow.
  { rewrite (row_ok node siblings example ∅ (extract_root node Htag)).
    - unfold row_of. by rewrite (right_id_L ∅ (∪)).
    - rewrite dom_empty_L. apply disjoint_empty_r. }
  split; [exact Hrow|]. split; [apply dom_base_alt|].
  intros s Hscore Hothers Hs. rewrite Hrow. f_equal.
  rewrite alt_dict_counters. unfold base_fields, alternatives.
  rewrite Htag, Hscore, Hothers. unfold bucket_of.
  rewrite !filter_cons, !filter_nil, Hs. reflexivity.
Qed.

Lemma root_row_witness :
  nitta_node_to_df_dict sample_root [sample_bind; sample_root] (Some "test")
  = Ok (base_fields sample_root (Some "test") ∪ counters 1 0 0 0).
Proof.
  destruct (root_row sample_root [sample_bind; sample_root] (Some "test")
              eq_refl) as (_ & _ & Hexample).
  apply (Hexample sample_bind); reflexivity.
Defined.

(** C6. A node whose tag is none of SingleBindView, GroupBindView,
    DataflowDecisionView and RootView is a refactoring: its only parameter
    field is [pRefactoringType], holding the tag itself, whatever the
    parameter payload, and the row is the base fields, the counters and that
    one field. *)
Theorem refactoring_row (node : NittaNode) (siblings : list NittaNode)
    (example : option string) :
  decision_tag node ∉ known_tags →
  _extract_params_dict node
  = Ok {["pRefactoringType" := PStr (decision_tag node)]}
  ∧ nitta_node_to_df_dict node siblings example
    = Ok (row_of node siblings example
            {["pRefactoringType" := PStr (decision_tag node)]})
  ∧ dom (row_of node siblings example
           {["pRefactoringType" := PStr (decision_tag node)]})
    = base_keys ∪ alt_keys ∪ {["pRefactoringType"]}.
Proof.
  intros Htag. pose proof (extract_refactoring node Htag) as Hp.
  split; [exact Hp|]. split.
  - apply row_ok; [exact Hp|]. rewrite dom_singleton_L.
    apply disjoint_singleton_r, not_reserved. vm_compute. reflexivity.
  - unfold row_of. rewrite dom_union_L, dom_base_alt, dom_singleton_L.
    reflexivity.
Qed.

Lemma refactoring_row_witness :
  _extract_params_dict sample_refactoring
  = Ok {["pRefactoringType" := PStr "BreakLoopView"]}
  ∧ nitta_node_to_df_dict sample_refactoring [sample_bind] None
    = Ok (row_of sample_refactoring [sample_bind] None
            {["pRefactoringType" := PStr "BreakLoopView"]}).
Proof.
  destruct (refactoring_row sample_refactoring [sample_bind] None)
    as (Hp & Hrow & _).
  - apply py_in_false. reflexivity.
  - split; [exact Hp | exact Hrow].
Defined.

(** C2 (as amended). For a SingleBind or GroupBind node whose parameters are
    a mapping that contains [tag], the parameter fields are the mapping
    without [tag]; every row produced holds the node's decision tag under
    [tag], never the parameter of that name, and all other parameters; a row
    is produced when no remaining parameter has the name of a base field or
    counter.  When [tag] is absent the extractor raises a key error and
    produces no row. *)
Theorem bind_row_drops_tag (node : NittaNode) (m : gmap string PyVal) :
  decision_tag node ∈ _BIND_DECISION_TAGS →
  parameters node = PDict m →
  (is_Some (m !! "tag") →
     _extract_params_dict node = Ok (delete "tag" m)
     ∧ delete "tag" m !! "tag" = None
     ∧ ∀ siblings example,
         reserved_keys ## dom (delete "tag" m) →
         nitta_node_to_df_dict node siblings example
         = Ok (row_of node siblings example (delete "tag" m)))
  ∧ (m !! "tag" = None →
     _extract_params_dict node = Raise KeyError
     ∧ ∀ siblings example,
         nitta_node_to_df_dict node siblings example = Raise KeyError)
  ∧ (∀ siblings example row,
       nitta_node_to_df_dict node siblings example = Ok row →
       is_Some (m !! "tag")
       ∧ row = row_of node siblings example (delete "tag" m)
       ∧ row !! "tag" = Some (PStr (decision_tag node))
       ∧ ∀ k, k ≠ "tag" → is_Some (m !! k) → row !! k = m !! k).
Proof.
  intros Htag Hpar. pose proof (extract_bind node m Htag Hpar) as Hp.
  unfold dict_delitem in Hp. split; [|split].
  - intros [t Ht]. rewrite Ht in Hp. split; [exact Hp|].
    split; [apply lookup_delete_eq|].
    intros siblings example Hd. by apply row_ok.
  - intros Hnone. rewrite Hnone in Hp. split; [exact Hp|].
    intros siblings example. by apply row_params_raise.
  - intros siblings example row Hrow.
    apply row_inv in Hrow as (params & Hparams & Hd & ->).
    rewrite Hparams in Hp. destruct (m !! "tag") as [t|] eqn:Ht; [|discriminate].
    injection Hp as ->. split; [by eexists|]. split; [reflexivity|]. split.
    + rewrite row_of_lookup_base by (unfold base_keys; set_solver).
      reflexivity.
    + intros k Hk Hin. rewrite row_of_lookup_params.
      * by apply lookup_delete_ne.
      * intros Hres. apply (Hd k Hres). apply elem_of_dom.
        by rewrite lookup_delete_ne.
Qed.

Lemma bind_row_drops_tag_witness :
  _extract_params_dict sample_bind = Ok {["pCritical" := PBool false]}
  ∧ _extract_params_dict sample_bind_untagged = Raise KeyError.
Proof.
  split.
  - destruct (bind_row_drops_tag sample_bind
                (<["tag" := PStr "BindMetrics"]>
                   (<["pCritical" := PBool false]> ∅)))
      as (Hpresent & _ & _).
    + apply py_in_true. reflexivity.
    + reflexivity.
    + destruct Hpresent as (Hp & _ & _); [by eexists | exact Hp].
  - destruct (bind_row_drops_tag sample_bind_untagged
                (<["pCritical" := PBool false]> ∅))
      as (_ & Habsent & _).
    + apply py_in_true. reflexivity.
    + reflexivity.
    + destruct Habsent as (Hp & _); [reflexivity | exact Hp].
Defined.

(** C2, the claim as written fails: a SingleBind node whose parameters have
    no [tag] yields no row that omits the field, but a key error. *)
Lemma bind_without_tag_raises :
  nitta_node_to_df_dict sample_bind_untagged [sample_dataflow] (Some "test")
  = Raise KeyError
  ∧ ¬ ∃ row,
        nitta_node_to_df_dict sample_bind_untagged [sample_dataflow]
          (Some "test") = Ok row.
Proof.
  assert (nitta_node_to_df_dict sample_bind_untagged [sample_dataflow]
            (Some "test") = Raise KeyError) as Hraise
    by (vm_compute; reflexivity).
  split; [exact Hraise|]. intros [row Hrow]. rewrite Hraise in Hrow.
  discriminate.
Qed.

(** C3. For a Dataflow node whose parameters contain the sequence
    [pNotTransferableInputs], here a sequence of integers, the parameter
    fields are the parameters with that field replaced by the sum of the
    integers (0 for the empty sequence), an integer and no longer a
    sequence; a row is produced whenever no parameter has the name of a base
    field or counter, and every row produced carries that sum under the
    field and every other parameter unchanged. *)
Theorem dataflow_inputs_sum (node : NittaNode) (m : gmap string PyVal)
    (zs : list Z) :
  decision_tag node = "DataflowDecisionView" →
  parameters node = PDict m →
  m !! "pNotTransferableInputs" = Some (PList (PInt <$> zs)) →
  _extract_params_dict node
  = Ok (<["pNotTransferableInputs" := PInt (foldr Z.add 0 zs)]> m)
  ∧ (zs = [] →
     _extract_params_dict node
     = Ok (<["pNotTransferableInputs" := PInt 0]> m))
  ∧ (∀ siblings example,
       reserved_keys ## dom m →
       nitta_node_to_df_dict node siblings example
       = Ok (row_of node siblings example
               (<["pNotTransferableInputs" := PInt (foldr Z.add 0 zs)]> m)))
  ∧ (∀ siblings example row,
       nitta_node_to_df_dict node siblings example = Ok row →
       row !! "pNotTransferableInputs" = Some (PInt (foldr Z.add 0 zs))
       ∧ ∀ k, k ≠ "pNotTransferableInputs" → is_Some (m !! k) →
              row !! k = m !! k).
Proof.
  intros Htag Hpar Hzs.
  assert (∀ acc, sum_from acc (PInt <$> zs) = Ok (acc + foldr Z.add 0 zs))
    as Hsum.
  { clear Hzs. induction zs as [|z rest IH]; intros acc; simpl.
    - f_equal. lia.
    - rewrite IH. f_equal. lia. }
  assert (_extract_params_dict node
          = Ok (<["pNotTransferableInputs" := PInt (foldr Z.add 0 zs)]> m))
    as Hp.
  { rewrite (extract_dataflow node m Htag Hpar). unfold dict_getitem.
    rewrite Hzs. simpl. rewrite Hsum. reflexivity. }
  split; [exact Hp|]. split; [|split].
  - intros ->. exact Hp.
  - intros siblings example Hd. apply row_ok; [exact Hp|].
    by rewrite dom_insert_lookup_L.
  - intros siblings example row Hrow.
    apply row_inv in Hrow as (params & Hparams & Hd & ->).
    rewrite Hp in Hparams. injection Hparams as <-.
    split.
    + rewrite row_of_lookup_params; [apply lookup_insert_eq|].
      intros Hres. apply (Hd _ Hres). rewrite dom_insert_lookup_L by done.
      by apply elem_of_dom.
    + intros k Hk Hin. rewrite row_of_lookup_params.
      * by apply lookup_insert_ne.
      * intros Hres. apply (Hd _ Hres). rewrite dom_insert_lookup_L by done.
        by apply elem_of_dom.
Qed.

Lemma dataflow_inputs_sum_witness :
  _extract_params_dict sample_dataflow_weighted
  = Ok (<["pNotTransferableInputs" := PInt 7]>
          (<["pNotTransferableInputs" := PList [PInt 5; PInt 0; PInt 2]]>
             (<["pWaitTime" := PInt 3]> ∅)))
  ∧ ∃ row,
      nitta_node_to_df_dict sample_dataflow_weighted [sample_bind] None
      = Ok row
      ∧ row !! "pNotTransferableInputs" = Some (PInt 7)
      ∧ row !! "pWaitTime" = Some (PInt 3).
Proof.
  destruct (dataflow_inputs_sum sample_dataflow_weighted
              (<["pNotTransferableInputs" := PList [PInt 5; PInt 0; PInt 2]]>
                 (<["pWaitTime" := PInt 3]> ∅))
              [5; 0; 2] eq_refl eq_refl eq_refl)
    as (Hp & _ & Hrow & Hcarried).
  split; [exact Hp|].
  eexists. split.
  - apply Hrow. apply (bool_decide_unpack _). vm_compute. reflexivity.
  - destruct (Hcarried [sample_bind] None _
                (Hrow [sample_bind] None
                   ltac:(apply (bool_decide_unpack _); vm_compute;
                         reflexivity)))
      as (Hfield & Hother).
    split; [exact Hfield|].
    rewrite (Hother "pWaitTime"); [reflexivity | discriminate |].
    eexists. reflexivity.
Defined.

(** C8. A Bind or Dataflow node whose parameters are not a mapping makes the
    extractor fail with an assertion error, and no row is built; for every
    other kind (Root, refactorings) the parameters are not looked at: the
    parameter fields are produced and are the same for any payload. *)
Theorem params_contract (node : NittaNode) :
  (decision_tag node ∈ _DATAFLOW_DECISION_TAGS ++ _BIND_DECISION_TAGS →
   (∀ m, parameters node ≠ PDict m) →
   _extract_params_dict node = Raise AssertionError
   ∧ ∀ siblings example,
       nitta_node_to_df_dict node siblings example = Raise AssertionError)
  ∧ (decision_tag node ∉ _DATAFLOW_DECISION_TAGS ++ _BIND_DECISION_TAGS →
     ∃ params,
       ∀ p, _extract_params_dict (with_parameters node p) = Ok params).
Proof.
  split.
  - intros Htag Hpar. pose proof (extract_not_dict node Htag Hpar) as Hp.
    split; [exact Hp|]. intros siblings example.
    by apply row_params_raise.
  - intros Htag. apply py_in_false in Htag.
    case_eq (String.eqb (decision_tag node) "RootView"); intros Hroot.
    + exists ∅. intros p. unfold _extract_params_dict.
      change (decision_tag (with_parameters node p)) with (decision_tag node).
      rewrite Htag, Hroot. reflexivity.
    + exists {["pRefactoringType" := PStr (decision_tag node)]}. intros p.
      unfold _extract_params_dict.
      change (decision_tag (with_parameters node p)) with (decision_tag node).
      rewrite Htag, Hroot. reflexivity.
Qed.

Lemma params_contract_witness :
  _extract_params_dict (with_parameters sample_dataflow (PList []))
  = Raise AssertionError
  ∧ ∃ params,
      ∀ p, _extract_params_dict (with_parameters sample_root p) = Ok params.
Proof.
  split.
  - destruct (params_contract (with_parameters sample_dataflow (PList [])))
      as (Hcheck & _).
    destruct Hcheck as (Hp & _); [| |exact Hp].
    + apply py_in_true. reflexivity.
    + intros m. discriminate.
  - destruct (params_contract sample_root) as (_ & Hfree).
    apply Hfree. apply py_in_false. reflexivity.
Defined.

(** C10. A Dataflow node whose parameters contain a key that is also a base
    field or a counter of the row ([tag] among them) yields no row but an
    error: the parameter fields, whenever they can be computed, still hold
    that key (only Bind kinds drop [tag]), and merging them into the row
    raises a type error. *)
Theorem dataflow_reserved_key_clash (node : NittaNode)
    (m : gmap string PyVal) (k : string) (siblings : list NittaNode)
    (example : option string) :
  decision_tag node = "DataflowDecisionView" →
  parameters node = PDict m →
  k ∈ reserved_keys →
  is_Some (m !! k) →
  (∃ e, nitta_node_to_df_dict node siblings example = Raise e)
  ∧ (∀ params,
       _extract_params_dict node = Ok params →
       params !! k = m !! k
       ∧ nitta_node_to_df_dict node siblings example = Raise TypeError).
Proof.
  intros Htag Hpar Hk Hin.
  assert (∀ params, _extract_params_dict node = Ok params →
            params !! k = m !! k) as Hkept.
  { intros params Hp. rewrite (extract_dataflow node m Htag Hpar) in Hp.
    destruct (dict_getitem m "pNotTransferableInputs") as [inputs|];
      [simpl in Hp | discriminate].
    destruct (py_sum inputs) as [z|]; [simpl in Hp | discriminate].
    injection Hp as <-. apply lookup_insert_ne. intros Heq. subst k.
    apply reserved_keys_elem in Hk. revert Hk.
    rewrite !elem_of_cons, elem_of_nil. intros Hk.
    repeat (destruct Hk as [Hk|Hk]; [discriminate|]). exact Hk. }
  assert (∀ params, _extract_params_dict node = Ok params →
            nitta_node_to_df_dict node siblings example = Raise TypeError)
    as Hclash.
  { intros params Hp. apply (row_clash node _ _ params k Hp Hk).
    by rewrite (Hkept params Hp). }
  split.
  - destruct (_extract_params_dict node) as [params|e] eqn:Hp.
    + exists TypeError. by apply (Hclash params).
    + exists e. by apply row_params_raise.
  - intros params Hp. split; [exact (Hkept params Hp) | exact (Hclash params Hp)].
Qed.

Lemma dataflow_reserved_key_clash_witness :
  nitta_node_to_df_dict sample_dataflow_tagged [sample_bind] (Some "test")
  = Raise TypeError.
Proof.
  destruct (dataflow_reserved_key_clash sample_dataflow_tagged
              (<["tag" := PStr "DataflowMetrics"]>
                 (<["pNotTransferableInputs" :=
                      PList [PInt 1; PInt 0; PInt 2]]> ∅))
              "tag" [sample_bind] (Some "test") eq_refl eq_refl)
    as (_ & Hclash).
  - apply (bool_decide_unpack _). vm_compute. reflexivity.
  - eexists. reflexivity.
  - destruct (Hclash _ eq_refl) as (_ & Hrow). exact Hrow.
Defined.

End NodeConvertingFacts.

(** * Properties of the sampling driver and the crawl orchestrator *)

Module DataCrawlingFacts.
Import DataCrawling.

(** ** The sampler and the accumulator *)

(** Playing a run on the accumulator [l] adds its rows, in order, to what
    [l] held, also when the run ends by raising. *)
Lemma play_run (l : nat) (run : SamplerRun) :
  ∀ (w : World) (before : list Dict),
    heap w !! l = Some before →
    play l run w
    = (match ending run with
       | None => Ok tt
       | Some e => Raise e
       end,
       mkWorld (<[l := before ++ appended run]> (heap w)) (trace w)).
Proof.
  induction run as [|row next IH|e]; intros w before Hl; simpl.
  - rewrite app_nil_r, insert_id by done. by destruct w.
  - unfold bind, list_append.
    etrans; [apply (IH _ (before ++ [row]))|]; simpl.
    + by rewrite lookup_alter_eq, Hl.
    + by rewrite insert_alter_eq, <- app_assoc.
  - rewrite app_nil_r, insert_id by done. by destruct w.
Qed.

Section WithEnv.
Context `{Env}.

(** The [try] statement of the driver, on a fresh accumulator. *)
Lemma sampling_step (example : Path) (l : nat) (runner_kwargs : Dict)
    (w : World) :
  heap w !! l = Some [] →
  try_except
    (call_run_synthesis_tree_sampling example l runner_kwargs)
    (log INFO InterruptedByUser)
    (fun e => log ERROR (UnexpectedError e)) w
  = (match ending (sampling_call example runner_kwargs) with
     | Some e => if caught e then Ok tt else Raise e
     | None => Ok tt
     end,
     mkWorld
       (<[l := appended (sampling_call example runner_kwargs)]> (heap w))
       (trace w ++ sampling_events example runner_kwargs
        ++ match ending (sampling_call example runner_kwargs) with
           | Some e => if caught e then handler_events e else []
           | None => []
           end)).
Proof.
  intros Hl.
  unfold try_except, call_run_synthesis_tree_sampling, sampling_call,
    sampling_events.
  case_bool_decide as Hclash.
  - simpl. unfold log, emit. simpl. rewrite insert_id by done. reflexivity.
  - unfold bind, emit.
    rewrite (play_run l _ (mkWorld (heap w) _) [] Hl). simpl.
    destruct (ending _) as [e|].
    + destruct e; simpl; unfold log, emit; simpl;
        rewrite <- ?app_assoc; simpl; rewrite ?app_nil_r; reflexivity.
    + reflexivity.
Qed.

(** What [crawl_data_from_example] returns, logs and calls, and what it
    leaves in the store. *)
Lemma crawl_example_run (example : Path) (data_dir : PyVal)
    (runner_kwargs : Dict) (w : World) :
  crawl_data_from_example example data_dir runner_kwargs w
  = (example_result example data_dir runner_kwargs,
     mkWorld
       (if path_exists example
        then <[fresh (dom (heap w)) :=
                 appended (sampling_call example runner_kwargs)]> (heap w)
        else heap w)
       (trace w ++ example_events example data_dir runner_kwargs)).
Proof.
  unfold crawl_data_from_example, example_result, example_events.
  unfold bind at 1. unfold log at 1, emit at 1.
  destruct (path_exists example); simpl.
  - unfold bind at 1. unfold new_list at 1. unfold bind at 1.
    rewrite sampling_step by (simpl; apply lookup_insert_eq). simpl.
    rewrite insert_insert_eq.
    destruct (ending (sampling_call example runner_kwargs)) as [e|];
      [destruct (caught e)|]; simpl.
    + unfold bind, list_items, emit, lift. simpl.
      rewrite lookup_total_insert_eq, <- ?app_assoc. simpl.
      rewrite <- ?app_assoc. reflexivity.
    + rewrite app_nil_r, <- ?app_assoc. reflexivity.
    + unfold bind, list_items, emit, lift. simpl.
      rewrite lookup_total_insert_eq, <- ?app_assoc. simpl.
      rewrite <- ?app_assoc. reflexivity.
  - unfold bind, log, emit, ret. simpl. rewrite <- ?app_assoc. reflexivity.
Qed.

(** ** The orchestrator *)

Lemma call_run (example : Path) (kwargs : Dict) (w : World) :
  ∃ h, call_crawl_data_from_example example kwargs w
       = (call_result example kwargs,
          mkWorld h (trace w ++ call_events example kwargs)).
Proof.
  unfold call_crawl_data_from_example, call_result, call_events.
  case_bool_decide.
  - exists (heap w). unfold raise. rewrite app_nil_r. by destruct w.
  - rewrite crawl_example_run. by eexists.
Qed.

Lemma call_result_run (example : Path) (kwargs : Dict) (w : World) :
  (call_crawl_data_from_example example kwargs w).1
  = call_result example kwargs.
Proof. destruct (call_run example kwargs w) as [h ->]. reflexivity. Qed.

Lemma returns_result (item : Path * Dict) :
  returns item → ∃ r, call_result item.1 item.2 = Ok r.
Proof.
  intros Hret. destruct (Hret empty_world) as [r Hr].
  exists r. by rewrite <- (call_result_run _ _ empty_world).
Qed.

Lemma yields_result (item : Path * Dict) (r : SamplingResult) :
  yields item r → call_result item.1 item.2 = Ok (Some r).
Proof.
  intros Hy. by rewrite <- (call_result_run _ _ empty_world), (Hy empty_world).
Qed.

Lemma crawl_loop_run (n : nat) (items : CrawlConfig) :
  ∀ (i : nat) (summary_stats : list Dict) (w : World),
    ∃ h, crawl_loop n i items summary_stats w
         = (loop_result items summary_stats,
            mkWorld h (trace w ++ loop_events n i items)).
Proof.
  induction items as [|[example kwargs] rest IH]; intros i summary_stats w.
  - exists (heap w). simpl. unfold ret. rewrite app_nil_r. by destruct w.
  - simpl. unfold bind at 1. unfold log, emit. unfold bind at 1.
    destruct (call_run example kwargs
                (mkWorld (heap w)
                   (trace w ++ [EvLog INFO (Processing example (i + 1) n)])))
      as [h ->].
    destruct (call_result example kwargs) as [[r|]|e]; simpl.
    + destruct (IH (S i) (summary_stats ++ [summary_entry example r])
                  (mkWorld h
                     ((trace w ++ [EvLog INFO (Processing example (i + 1) n)])
                      ++ call_events example kwargs))) as [h' ->].
      exists h'. simpl. by rewrite <- !app_assoc.
    + destruct (IH (S i) summary_stats
                  (mkWorld h
                     ((trace w ++ [EvLog INFO (Processing example (i + 1) n)])
                      ++ call_events example kwargs))) as [h' ->].
      exists h'. simpl. by rewrite <- !app_assoc.
    + exists h. simpl. by rewrite app_nil_r, <- !app_assoc.
Qed.

(** The orchestrator on an explicit configuration. *)
Lemma crawl_many_run (cfg : CrawlConfig) (w : World) :
  ∃ h, crawl_data_from_many_examples (Some cfg) w
       = (match loop_result cfg [] with
          | Ok summary_stats =>
              save_dicts_list_to_csv_with_timestamp summary_stats
                (PStr DATA_DIR) "_crawling_summary" "crawling summary"
          | Raise e => Raise e
          end,
          mkWorld h
            (trace w
             ++ EvLog INFO (CrawlingFrom (length cfg) (cfg.*1))
                :: loop_events (length cfg) 0 cfg
             ++ match loop_result cfg [] with
                | Ok summary_stats => summary_events summary_stats
                | Raise _ => []
                end)).
Proof.
  unfold crawl_data_from_many_examples. unfold bind at 1. unfold ret at 1.
  unfold bind at 1. unfold log at 1, emit at 1. unfold bind at 1.
  destruct (crawl_loop_run (length cfg) cfg 0 []
              (mkWorld (heap w)
                 (trace w ++ [EvLog INFO (CrawlingFrom (length cfg) (cfg.*1))])))
    as [h ->].
  exists h. destruct (loop_result cfg []) as [summary_stats|e]; simpl.
  - unfold bind, log, emit, lift, summary_events. simpl.
    by rewrite <- !app_assoc.
  - by rewrite app_nil_r, <- !app_assoc.
Qed.

(** When every call returns, the loop goes through all the items. *)
Lemma loop_result_returns (items : CrawlConfig) :
  Forall returns items →
  ∀ summary_stats,
    loop_result items summary_stats
    = Ok (summary_stats ++ omap summary_line items).
Proof.
  induction 1 as [|[example kwargs] rest Hret _ IH]; intros summary_stats.
  - simpl. by rewrite app_nil_r.
  - simpl. unfold summary_line at 1. simpl.
    apply returns_result in Hret as [[r|] Hr]; simpl in Hr; rewrite Hr.
    + rewrite IH. by rewrite <- app_assoc.
    + apply IH.
Qed.

Lemma loop_events_returns (n : nat) (items : CrawlConfig) :
  Forall returns items →
  ∀ i, loop_events n i items
       = concat (imap (fun j => item_events n (i + j)) items).
Proof.
  induction 1 as [|[example kwargs] rest Hret _ IH]; intros i.
  - reflexivity.
  - apply returns_result in Hret as [r Hr]. cbn [fst snd] in Hr.
    cbn [loop_events]. rewrite Hr, imap_cons. cbn [concat].
    unfold item_events at 1. cbn [fst snd]. rewrite Nat.add_0_r.
    rewrite <- app_comm_cons. do 2 f_equal. rewrite IH. f_equal.
    apply imap_ext. intros j item _. unfold compose.
    replace (i + S j)%nat with (S i + j)%nat by lia. reflexivity.
Qed.

Lemma call_events_no_summary (example : Path) (kwargs : Dict) :
  filter is_summary_save (call_events example kwargs) = [].
Proof.
  unfold call_events, example_events, sampling_events.
  repeat case_bool_decide; [reflexivity| |].
  all: destruct (path_exists example); [|reflexivity].
  all: destruct (ending _) as [e|]; [destruct e|]; reflexivity.
Qed.

Lemma items_no_summary (n : nat) (items : CrawlConfig) :
  ∀ i, filter is_summary_save
         (concat (imap (fun j => item_events n (i + j)) items)) = [].
Proof.
  induction items as [|item rest IH]; intros i; [reflexivity|].
  rewrite imap_cons. cbn [concat]. rewrite filter_app.
  unfold item_events at 1. rewrite filter_cons. cbn [is_summary_save].
  rewrite decide_False by (intros []).
  rewrite call_events_no_summary. cbn [app].
  rewrite <- (IH (S i)). do 2 f_equal. apply imap_ext.
  intros j item' _. unfold compose.
  replace (i + S j)%nat with (S i + j)%nat by lia. reflexivity.
Qed.

Lemma call_result_missing (example : Path) (kwargs : Dict) :
  path_exists example = false →
  "example" ∉@{gset string} dom kwargs →
  call_result example kwargs = Ok None
  ∧ call_events example kwargs
    = [EvLog INFO (StartingExample example);
       EvLog ERROR (SourceNotFound example)].
Proof.
  intros Hmissing Hkw.
  unfold call_result, call_events, example_result, example_events.
  rewrite bool_decide_eq_false_2 by done. by rewrite Hmissing.
Qed.

(** An exception of the sampler that neither [except] clause catches leaves
    the driver; nothing is processed. *)
Lemma uncaught_exception_leaves (example : Path) (data_dir : PyVal)
    (runner_kwargs : Dict) (w : World) (e : PyExc) :
  path_exists example = true →
  ending (sampling_call example runner_kwargs) = Some e →
  caught e = false →
  (crawl_data_from_example example data_dir runner_kwargs w).1 = Raise e.
Proof.
  intros Hex Hend Hun. rewrite crawl_example_run. unfold example_result.
  cbn [fst]. by rewrite Hex, Hend, Hun.
Qed.

(** ** The claims about the driver and the orchestrator *)

(** X20. On an existing source, when the sampler ends by raising
    [KeyboardInterrupt] or an exception of class [Exception], the driver does
    not raise it: it logs, and returns what processing gives for exactly the
    rows the sampler had appended to the accumulator before it raised, in
    their order; these rows are what the accumulator holds at the end. *)
Theorem sampling_failure_absorbed (example : Path) (data_dir : PyVal)
    (runner_kwargs : Dict) (w : World) (e : PyExc) :
  path_exists example = true →
  ending (sampling_call example runner_kwargs) = Some e →
  e = KeyboardInterrupt ∨ is_Exception e = true →
  (crawl_data_from_example example data_dir runner_kwargs w).1
  = process_and_save_sampling_results example
      (appended (sampling_call example runner_kwargs)) data_dir
  ∧ heap (crawl_data_from_example example data_dir runner_kwargs w).2
      !! fresh (dom (heap w))
    = Some (appended (sampling_call example runner_kwargs))
  ∧ trace (crawl_data_from_example example data_dir runner_kwargs w).2
    = trace w
      ++ EvLog INFO (StartingExample example)
         :: sampling_events example runner_kwargs
      ++ handler_events e
      ++ [EvProcessAndSave example
            (appended (sampling_call example runner_kwargs)) data_dir].
Proof.
  intros Hex Hend Hclass.
  assert (caught e = true) as Hcaught.
  { destruct Hclass as [-> | He]; [reflexivity|]. by destruct e. }
  rewrite crawl_example_run. unfold example_result, example_events.
  cbn [fst snd heap trace]. rewrite Hex, Hend, Hcaught.
  split; [reflexivity|]. split; [apply lookup_insert_eq | reflexivity].
Qed.

Lemma missing_returns (example : Path) (kwargs : Dict) :
  path_exists example = false →
  "example" ∉@{gset string} dom kwargs →
  returns (example, kwargs).
Proof.
  intros Hmissing Hkw w. exists None. rewrite call_result_run.
  by destruct (call_result_missing example kwargs Hmissing Hkw).
Qed.

(** C7. A source that does not exist makes the driver return no result after
    logging an error, without sampling, processing or touching the store.
    In any configuration, an item with such a source adds nothing to the
    summary and does not stop the crawl: the items before and after it are
    processed in their order, and the summary persisted is that of the
    configuration without the item.  With one missing and one valid source,
    in either order, the summary has exactly the entry of the valid one and
    the orchestrator returns normally. *)
Theorem missing_source_skipped (before after : CrawlConfig) (missing : Path)
    (kwargs : Dict) (w : World) :
  path_exists missing = false →
  "example" ∉@{gset string} dom kwargs →
  Forall returns before →
  Forall returns after →
  (∀ data_dir runner_kwargs w',
     crawl_data_from_example missing data_dir runner_kwargs w'
     = (Ok None,
        mkWorld (heap w')
          (trace w' ++ [EvLog INFO (StartingExample missing);
                        EvLog ERROR (SourceNotFound missing)])))
  ∧ (crawl_data_from_many_examples
       (Some (before ++ (missing, kwargs) :: after)) w).1
    = save_dicts_list_to_csv_with_timestamp
        (omap summary_line (before ++ after))
        (PStr DATA_DIR) "_crawling_summary" "crawling summary"
  ∧ trace (crawl_data_from_many_examples
             (Some (before ++ (missing, kwargs) :: after)) w).2
    = trace w
      ++ EvLog INFO (CrawlingFrom
                       (length (before ++ (missing, kwargs) :: after))
                       ((before ++ (missing, kwargs) :: after).*1))
         :: concat (imap (item_events
                            (length (before ++ (missing, kwargs) :: after)))
                      before)
      ++ [EvLog INFO (Processing missing (length before + 1)
                        (length (before ++ (missing, kwargs) :: after)));
          EvLog INFO (StartingExample missing);
          EvLog ERROR (SourceNotFound missing)]
      ++ concat (imap (fun j =>
                         item_events
                           (length (before ++ (missing, kwargs) :: after))
                           (length before + 1 + j))
                   after)
      ++ summary_events (omap summary_line (before ++ after))
  ∧ ∀ valid kw_valid r,
      (before = [] ∧ after = [(valid, kw_valid)])
      ∨ (before = [(valid, kw_valid)] ∧ after = []) →
      yields (valid, kw_valid) r →
      save_dicts_list_to_csv_with_timestamp [summary_entry valid r]
        (PStr DATA_DIR) "_crawling_summary" "crawling summary" = Ok tt →
      omap summary_line (before ++ after) = [summary_entry valid r]
      ∧ (crawl_data_from_many_examples
           (Some (before ++ (missing, kwargs) :: after)) w).1 = Ok tt.
Proof.
  intros Hmissing Hkw Hbefore Hafter.
  destruct (call_result_missing missing kwargs Hmissing Hkw)
    as [Hres_m Hev_m].
  assert (Forall returns (before ++ (missing, kwargs) :: after)) as Hall.
  { apply Forall_app. split; [exact Hbefore|].
    apply Forall_cons. split; [by apply missing_returns | exact Hafter]. }
  assert (omap summary_line (before ++ (missing, kwargs) :: after)
          = omap summary_line (before ++ after)) as Hsummary.
  { rewrite !omap_app. f_equal. cbn [omap list_omap]. unfold summary_line at 1.
    cbn [fst snd]. by rewrite Hres_m. }
  assert ((crawl_data_from_many_examples
             (Some (before ++ (missing, kwargs) :: after)) w).1
          = save_dicts_list_to_csv_with_timestamp
              (omap summary_line (before ++ after))
              (PStr DATA_DIR) "_crawling_summary" "crawling summary")
    as Hresult.
  { destruct (crawl_many_run (before ++ (missing, kwargs) :: after) w)
      as [h ->].
    rewrite (loop_result_returns _ Hall []). cbn [fst app].
    by rewrite Hsummary. }
  split.
  { intros data_dir runner_kwargs w'. rewrite crawl_example_run.
    unfold example_result, example_events. by rewrite Hmissing. }
  split; [exact Hresult|]. split.
  - destruct (crawl_many_run (before ++ (missing, kwargs) :: after) w)
      as [h ->].
    rewrite (loop_result_returns _ Hall []).
    rewrite (loop_events_returns _ _ Hall 0).
    cbn [snd trace app]. rewrite Hsummary. do 2 f_equal.
    rewrite imap_app, concat_app, imap_cons. cbn [concat].
    unfold item_events at 2. cbn [fst snd]. rewrite Hev_m.
    rewrite <- !app_assoc. f_equal.
    replace (0 + (length before + 0) + 1)%nat with (length before + 1)%nat
      by lia.
    cbn [app]. do 3 f_equal.
    assert (imap ((fun n =>
                     item_events
                       (length (before ++ (missing, kwargs) :: after))
                       (0 + (length before + n))) ∘ S) after
            = imap (fun j =>
                      item_events
                        (length (before ++ (missing, kwargs) :: after))
                        (length before + 1 + j)) after) as ->;
      [|reflexivity].
    apply imap_ext. intros j item _. unfold compose.
    replace (0 + (length before + S j))%nat
      with (length before + 1 + j)%nat by lia.
    reflexivity.
  - intros valid kw_valid r Hshape Hvalid Hsave.
    pose proof (yields_result _ _ Hvalid) as Hres_v.
    cbn [fst snd] in Hres_v.
    assert (omap summary_line (before ++ after) = [summary_entry valid r])
      as Hone.
    { destruct Hshape as [[-> ->] | [-> ->]]; cbn [app omap list_omap];
        unfold summary_line; cbn [fst snd]; by rewrite Hres_v. }
    split; [exact Hone|]. by rewrite Hresult, Hone.
Qed.

(** C9. The default configuration is used only when none is given: the
    orchestrator on [None] is the orchestrator on the default after one log
    line.  On a given configuration, the empty one included, the items are
    processed one after the other in their order, each to its end, and the
    summary of those that gave a result is persisted once, after the last
    item; the run is the same whatever the directory the default is built
    from. *)
Theorem explicit_config_used (cfg : CrawlConfig) (w : World) :
  (Forall returns cfg →
   (crawl_data_from_many_examples (Some cfg) w).1
   = save_dicts_list_to_csv_with_timestamp (omap summary_line cfg)
       (PStr DATA_DIR) "_crawling_summary" "crawling summary"
   ∧ trace (crawl_data_from_many_examples (Some cfg) w).2
     = trace w
       ++ EvLog INFO (CrawlingFrom (length cfg) (cfg.*1))
          :: concat (imap (item_events (length cfg)) cfg)
       ++ summary_events (omap summary_line cfg)
   ∧ filter is_summary_save
       (EvLog INFO (CrawlingFrom (length cfg) (cfg.*1))
        :: concat (imap (item_events (length cfg)) cfg)
        ++ summary_events (omap summary_line cfg))
     = [EvSaveSummary (omap summary_line cfg) (PStr DATA_DIR)
          "_crawling_summary" "crawling summary"])
  ∧ crawl_data_from_many_examples (Some []) w
    = (save_dicts_list_to_csv_with_timestamp [] (PStr DATA_DIR)
         "_crawling_summary" "crawling summary",
       mkWorld (heap w)
         (trace w
          ++ [EvLog INFO (CrawlingFrom 0 []);
              EvLog INFO (DoneSummary 0);
              EvSaveSummary [] (PStr DATA_DIR) "_crawling_summary"
                "crawling summary"]))
  ∧ crawl_data_from_many_examples None w
    = crawl_data_from_many_examples (Some MANUAL_FULL_CRAWL_CONFIG)
        (mkWorld (heap w) (trace w ++ [EvLog INFO UsingDefaultConfig]))
  ∧ ∀ dir,
      @crawl_data_from_many_examples (with_examples_dir H dir) (Some cfg) w
      = crawl_data_from_many_examples (Some cfg) w.
Proof.
  split; [|split; [|split]]; [| | |reflexivity].
  - intros Hret. destruct (crawl_many_run cfg w) as [h ->].
    rewrite (loop_result_returns cfg Hret []).
    rewrite (loop_events_returns (length cfg) cfg Hret 0).
    cbn [fst snd trace app]. split; [reflexivity|]. split; [reflexivity|].
    rewrite filter_cons. cbn [is_summary_save].
    rewrite decide_False by (intros []).
    pose proof (items_no_summary (length cfg) cfg 0) as Hitems.
    change (filter is_summary_save
              (concat (imap (item_events (length cfg)) cfg)) = [])
      in Hitems.
    rewrite filter_app, Hitems. reflexivity.
  - unfold crawl_data_from_many_examples, bind, ret, log, emit, lift.
    cbn. by rewrite <- !app_assoc.
  - reflexivity.
Qed.

End WithEnv.

(** ** The claims at work on the sample environment *)

Lemma sampling_failure_absorbed_witness :
  (@crawl_data_from_example sample_env "examples/sum.lua" (PStr "data")
     (sampling_kwargs 3 4) empty_world).1
  = Ok (Some (mkSamplingResult [sample_row 1; sample_row 2]
                {["n_rows" := PInt 2]})).
Proof.
  destruct (@sampling_failure_absorbed sample_env "examples/sum.lua"
              (PStr "data") (sampling_kwargs 3 4) empty_world
              KeyboardInterrupt) as (Hres & _).
  - reflexivity.
  - vm_compute. reflexivity.
  - left. reflexivity.
  - rewrite Hres. vm_compute. reflexivity.
Defined.

Lemma missing_source_skipped_witness :
  (@crawl_data_from_many_examples sample_env
     (Some ([("examples/sum.lua", sampling_kwargs 3 4)]
            ++ ("examples/missing.lua", sampling_kwargs 1 2)
               :: [("examples/absent.lua", sampling_kwargs 5 6);
                   ("examples/sum.lua", sampling_kwargs 7 8)]))
     empty_world).1
  = Ok tt.
Proof.
  destruct (@missing_source_skipped sample_env
              [("examples/sum.lua", sampling_kwargs 3 4)]
              [("examples/absent.lua", sampling_kwargs 5 6);
               ("examples/sum.lua", sampling_kwargs 7 8)]
              "examples/missing.lua" (sampling_kwargs 1 2) empty_world)
    as (_ & Hres & _).
  - reflexivity.
  - apply (bool_decide_unpack _). vm_compute. reflexivity.
  - repeat constructor; intros w; rewrite call_result_run; eexists;
      vm_compute; reflexivity.
  - repeat constructor; intros w; rewrite call_result_run; eexists;
      vm_compute; reflexivity.
  - rewrite Hres. reflexivity.
Defined.

(** C1. The driver does not absorb every interruption of the sampler: when
    the sampling coroutine is cancelled after it has appended a row, the
    driver raises the cancellation to its caller, the row stays in the
    accumulator, and nothing is handed over for processing. *)
Lemma cancelled_sampling_escapes :
  (@crawl_data_from_example
     (sample_env_with (Appends (sample_row 1) (Raises CancelledError)) None)
     "examples/sum.lua" (PStr "data") (sampling_kwargs 3 4) empty_world).1
  = Raise CancelledError
  ∧ heap (@crawl_data_from_example
            (sample_env_with
               (Appends (sample_row 1) (Raises CancelledError)) None)
            "examples/sum.lua" (PStr "data") (sampling_kwargs 3 4)
            empty_world).2 !! fresh (dom (heap empty_world))
    = Some [sample_row 1]
  ∧ filter is_processing
      (trace (@crawl_data_from_example
                (sample_env_with
                   (Appends (sample_row 1) (Raises CancelledError)) None)
                "examples/sum.lua" (PStr "data") (sampling_kwargs 3 4)
                empty_world).2)
    = [].
Proof.
  rewrite crawl_example_run. repeat split; vm_compute; reflexivity.
Qed.

Lemma explicit_config_used_witness :
  (@crawl_data_from_many_examples sample_env
     (Some [("examples/missing.lua", sampling_kwargs 1 2);
            ("examples/sum.lua", sampling_kwargs 3 4)]) empty_world).1
  = Ok tt.
Proof.
  destruct (@explicit_config_used sample_env
              [("examples/missing.lua", sampling_kwargs 1 2);
               ("examples/sum.lua", sampling_kwargs 3 4)] empty_world)
    as (Hgiven & _ & _ & _).
  destruct Hgiven as (Hres & _ & _).
  - repeat constructor; intros w; rewrite call_result_run; eexists;
      vm_compute; reflexivity.
  - rewrite Hres. reflexivity.
Defined.

End DataCrawlingFacts.

(** * Further properties of the feature extractor *)

Module ExtractorProperties.
Import NodeConverting NodeConvertingFacts.

(** ** Helpers *)

Lemma base_fields_lookups (node : NittaNode) (example : option string) :
  base_fields node example !! "example" = Some (py_opt_str example)
  ∧ base_fields node example !! "sid" = Some (PStr (sid node))
  ∧ base_fields node example !! "tag" = Some (PStr (decision_tag node))
  ∧ base_fields node example !! "old_score" = Some (PInt (score node))
  ∧ base_fields node example !! "is_terminal"
    = Some (PBool (is_terminal node)).
Proof. unfold base_fields. repeat split; by simplify_map_eq. Qed.

Lemma size_reserved_keys : size reserved_keys = 9%nat.
Proof. vm_compute. reflexivity. Qed.

Lemma alternatives_app (k : string) (node : NittaNode)
    (s1 s2 : list NittaNode) :
  alternatives k node (s1 ++ s2)
  = alternatives k node s1 + alternatives k node s2.
Proof.
  unfold alternatives, others. rewrite !filter_app, length_app. lia.
Qed.

Lemma alternatives_bounds (k : string) (node : NittaNode)
    (siblings : list NittaNode) :
  (0 ≤ alternatives k node siblings
   ≤ Z.of_nat (length (others node siblings)))%Z.
Proof.
  unfold alternatives. split; [lia|]. apply inj_le, length_filter.
Qed.

Lemma counters_lookups (a b c d : Z) :
  counters a b c d !! "alt_bindings" = Some (PInt a)
  ∧ counters a b c d !! "alt_group_bindings" = Some (PInt b)
  ∧ counters a b c d !! "alt_dataflows" = Some (PInt c)
  ∧ counters a b c d !! "alt_refactorings" = Some (PInt d).
Proof. unfold counters. repeat split; by simplify_map_eq. Qed.

Lemma counters_inj (a b c d a' b' c' d' : Z) :
  counters a b c d = counters a' b' c' d' →
  a = a' ∧ b = b' ∧ c = c' ∧ d = d'.
Proof.
  intros Heq.
  destruct (counters_lookups a b c d) as (Ha & Hb & Hc & Hd).
  destruct (counters_lookups a' b' c' d') as (Ha' & Hb' & Hc' & Hd').
  rewrite Heq in Ha, Hb, Hc, Hd. repeat split; congruence.
Qed.

(** ** The fields of a row *)

(** X1. Every row carries the five base fields with the values of the node
    and the example label given. *)
Theorem row_base_fields_copied (node : NittaNode) (siblings : list NittaNode)
    (example : option string) (row : gmap string PyVal) :
  nitta_node_to_df_dict node siblings example = Ok row →
  row !! "example" = Some (py_opt_str example)
  ∧ row !! "sid" = Some (PStr (sid node))
  ∧ row !! "tag" = Some (PStr (decision_tag node))
  ∧ row !! "old_score" = Some (PInt (score node))
  ∧ row !! "is_terminal" = Some (PBool (is_terminal node)).
Proof.
  intros Hrow. apply row_inv in Hrow as (params & _ & _ & ->).
  destruct (base_fields_lookups node example) as (He & Hs & Ht & Ho & Hi).
  rewrite !row_of_lookup_base by (unfold base_keys; set_solver).
  by rewrite He, Hs, Ht, Ho, Hi.
Qed.

Lemma row_base_fields_copied_witness :
  nitta_node_to_df_dict sample_root [sample_bind] (Some "sum")
  = Ok (row_of sample_root [sample_bind] (Some "sum") ∅)
  ∧ row_of sample_root [sample_bind] (Some "sum") ∅ !! "sid"
    = Some (PStr "-")
  ∧ row_of sample_root [sample_bind] (Some "sum") ∅ !! "old_score"
    = Some (PInt 1010).
Proof.
  assert (nitta_node_to_df_dict sample_root [sample_bind] (Some "sum")
          = Ok (row_of sample_root [sample_bind] (Some "sum") ∅)) as Hrow.
  { apply row_ok; [reflexivity|]. rewrite dom_empty_L.
    apply disjoint_empty_r. }
  split; [exact Hrow|].
  destruct (row_base_fields_copied _ _ _ _ Hrow)
    as (_ & Hsid & _ & Hscore & _).
  split; [exact Hsid | exact Hscore].
Defined.

(** X2. A row is the nine fixed fields plus the parameter fields and nothing
    else: its keys are the nine and those of the parameter fields, which are
    disjoint, so it has nine fields more than there are parameter fields, and
    outside the nine it holds the parameter fields. *)
Theorem row_fields (node : NittaNode) (siblings : list NittaNode)
    (example : option string) (row : gmap string PyVal) :
  nitta_node_to_df_dict node siblings example = Ok row →
  ∃ params,
    _extract_params_dict node = Ok params
    ∧ reserved_keys ## dom params
    ∧ dom row = reserved_keys ∪ dom params
    ∧ size row = (9 + size params)%nat
    ∧ ∀ k, k ∉ reserved_keys → row !! k = params !! k.
Proof.
  intros Hrow. apply row_inv in Hrow as (params & Hp & Hd & ->).
  exists params. split; [exact Hp|]. split; [exact Hd|]. split; [|split].
  - unfold row_of. by rewrite dom_union_L, dom_base_alt.
  - unfold row_of. rewrite map_size_disj_union.
    + by rewrite <- (size_dom (D := gset string)), dom_base_alt,
        size_reserved_keys.
    + apply map_disjoint_dom_2. by rewrite dom_base_alt.
  - intros k Hk. by apply row_of_lookup_params.
Qed.

Lemma row_fields_witness :
  size (row_of sample_root [sample_bind] (Some "sum") ∅) = 9%nat.
Proof.
  assert (nitta_node_to_df_dict sample_root [sample_bind] (Some "sum")
          = Ok (row_of sample_root [sample_bind] (Some "sum") ∅)) as Hrow.
  { apply row_ok; [reflexivity|]. rewrite dom_empty_L.
    apply disjoint_empty_r. }
  destruct (row_fields _ _ _ _ Hrow) as (params & Hp & _ & _ & Hsize & _).
  rewrite Hsize. injection Hp as <-. reflexivity.
Defined.

(** ** Errors *)

Lemma py_sum_raises (v : PyVal) (e : PyExc) :
  py_sum v = Raise e → e = TypeError.
Proof.
  destruct v as [| | | s |xs|m]; simpl; try congruence.
  - destruct (String.eqb s ""); congruence.
  - rewrite sum_from_numbers. destruct (as_numbers xs); congruence.
  - case_bool_decide; congruence.
Qed.

Lemma row_with_params_raises (node : NittaNode) (siblings : list NittaNode)
    (example : option string) (params : gmap string PyVal) (e : PyExc) :
  _extract_params_dict node = Ok params →
  nitta_node_to_df_dict node siblings example = Raise e →
  e = TypeError ∧ ¬ reserved_keys ## dom params.
Proof.
  intros Hp Hrow. rewrite (row_with_params _ _ _ _ Hp) in Hrow.
  unfold kw_merge in Hrow. rewrite dom_base_alt in Hrow.
  case_bool_decide; [discriminate|]. split; [congruence | done].
Qed.

(** X3. The extractor raises only for Bind and Dataflow nodes, and only an
    assertion, key or type error; the assertion error exactly when the
    parameters are not a mapping. *)
Theorem row_errors (node : NittaNode) (siblings : list NittaNode)
    (example : option string) (e : PyExc) :
  nitta_node_to_df_dict node siblings example = Raise e →
  (e = AssertionError ∨ e = KeyError ∨ e = TypeError)
  ∧ decision_tag node ∈ _DATAFLOW_DECISION_TAGS ++ _BIND_DECISION_TAGS
  ∧ (e = AssertionError ↔ ∀ m, parameters node ≠ PDict m).
Proof.
  intros Hrow.
  destruct (decide (decision_tag node
                    ∈ _DATAFLOW_DECISION_TAGS ++ _BIND_DECISION_TAGS))
    as [Hin|Hout].
  - assert ((∀ m, parameters node ≠ PDict m)
            ∨ ∃ m, parameters node = PDict m) as [Hnd|[m Hm]].
    { destruct (parameters node); try (left; intros; discriminate).
      right. by eexists. }
    + rewrite (row_params_raise _ _ _ _ (extract_not_dict node Hin Hnd))
        in Hrow.
      injection Hrow as <-. split; [by left|]. split; [exact Hin|]. done.
    + assert (e = KeyError ∨ e = TypeError) as Hcases.
      { destruct (_extract_params_dict node) as [params|e'] eqn:Hp.
        - right. by destruct (row_with_params_raises _ _ _ _ _ Hp Hrow).
        - rewrite (row_params_raise _ _ _ _ Hp) in Hrow.
          injection Hrow as ->.
          apply elem_of_app in Hin as [Hdf|Hb].
          + apply list_elem_of_singleton in Hdf.
            rewrite (extract_dataflow node m Hdf Hm) in Hp.
            unfold dict_getitem in Hp.
            destruct (m !! "pNotTransferableInputs") as [v|];
              [simpl in Hp | simpl in Hp; left; congruence].
            destruct (py_sum v) as [z|e''] eqn:Hsum; [discriminate|].
            simpl in Hp. right. apply py_sum_raises in Hsum. congruence.
          + rewrite (extract_bind node m Hb Hm) in Hp.
            unfold dict_delitem in Hp.
            destruct (m !! "tag"); [discriminate | left; congruence]. }
      split; [tauto|]. split; [exact Hin|]. split.
      * intros ->. destruct Hcases; discriminate.
      * intros Hnd. by destruct (Hnd m).
  - exfalso. apply py_in_false in Hout.
    assert (∃ params, _extract_params_dict node = Ok params
                      ∧ reserved_keys ## dom params) as (params & Hp & Hd).
    { unfold _extract_params_dict. rewrite Hout.
      destruct (String.eqb (decision_tag node) "RootView").
      - exists ∅. split; [reflexivity|]. rewrite dom_empty_L.
        apply disjoint_empty_r.
      - eexists. split; [reflexivity|]. rewrite dom_singleton_L.
        apply disjoint_singleton_r, not_reserved. vm_compute. reflexivity. }
    rewrite (row_ok _ _ _ _ Hp Hd) in Hrow. discriminate.
Qed.

Lemma row_errors_witness :
  nitta_node_to_df_dict sample_bind_untagged [] None = Raise KeyError
  ∧ "SingleBindView" ∈ _DATAFLOW_DECISION_TAGS ++ _BIND_DECISION_TAGS.
Proof.
  assert (nitta_node_to_df_dict sample_bind_untagged [] None
          = Raise KeyError) as Hrow.
  { apply row_params_raise. reflexivity. }
  split; [exact Hrow|].
  destruct (row_errors _ _ _ _ Hrow) as (_ & Htag & _). exact Htag.
Defined.

(** X19. No row of the extractor is the dict that
    [test_node_to_train_df_dict] expects: every row has the field
    [alt_group_bindings], which that dict lacks. *)
Theorem row_never_test_expectation (node : NittaNode)
    (siblings : list NittaNode) (example : option string) :
  nitta_node_to_df_dict node siblings example ≠ Ok test_expected_row
  ∧ ∀ row, nitta_node_to_df_dict node siblings example = Ok row →
           is_Some (row !! "alt_group_bindings")
           ∧ test_expected_row !! "alt_group_bindings" = None.
Proof.
  assert (∀ row, nitta_node_to_df_dict node siblings example = Ok row →
                 is_Some (row !! "alt_group_bindings")) as Hhas.
  { intros row Hrow. apply row_inv in Hrow as (params & _ & _ & ->).
    rewrite row_of_lookup_alt by (unfold alt_keys; set_solver).
    by eexists. }
  assert (test_expected_row !! "alt_group_bindings" = None) as Hlacks.
  { unfold test_expected_row. by simplify_map_eq. }
  split.
  - intros Hrow. apply Hhas in Hrow as [v Hv]. congruence.
  - intros row Hrow. split; [by apply Hhas | exact Hlacks].
Qed.

(** ** The counters as a function of the sibling collection *)

Lemma row_depends_on_alt_dict (node : NittaNode)
    (siblings siblings' : list NittaNode) (example : option string) :
  _extract_alternative_siblings_dict node siblings
  = _extract_alternative_siblings_dict node siblings' →
  nitta_node_to_df_dict node siblings example
  = nitta_node_to_df_dict node siblings' example.
Proof. intros Heq. unfold nitta_node_to_df_dict. by rewrite Heq. Qed.

Lemma alternatives_Permutation (k : string) (node : NittaNode)
    (siblings siblings' : list NittaNode) :
  siblings ≡ₚ siblings' →
  alternatives k node siblings = alternatives k node siblings'.
Proof.
  intros Hperm. unfold alternatives, others. by rewrite Hperm.
Qed.

(** X4. The order of the siblings does not matter: a permutation of the
    collection gives the same counters and the same row or error. *)
Theorem sibling_order_irrelevant (node : NittaNode)
    (siblings siblings' : list NittaNode) :
  siblings ≡ₚ siblings' →
  _extract_alternative_siblings_dict node siblings
  = _extract_alternative_siblings_dict node siblings'
  ∧ ∀ example,
      nitta_node_to_df_dict node siblings example
      = nitta_node_to_df_dict node siblings' example.
Proof.
  intros Hperm.
  assert (_extract_alternative_siblings_dict node siblings
          = _extract_alternative_siblings_dict node siblings') as Heq.
  { rewrite !alt_dict_counters.
    by rewrite !(alternatives_Permutation _ node siblings siblings' Hperm). }
  split; [exact Heq|]. intros example. by apply row_depends_on_alt_dict.
Qed.

Lemma sibling_order_irrelevant_witness :
  _extract_alternative_siblings_dict sample_root
    [sample_bind; sample_dataflow; sample_refactoring]
  = _extract_alternative_siblings_dict sample_root
      [sample_refactoring; sample_bind; sample_dataflow].
Proof.
  apply (sibling_order_irrelevant sample_root
           [sample_bind; sample_dataflow; sample_refactoring]
           [sample_refactoring; sample_bind; sample_dataflow]).
  symmetry.
  apply (Permutation_cons_append [sample_bind; sample_dataflow]
           sample_refactoring).
Defined.

(** X5. Counting is additive: the counters of two collections put one after
    the other are the sums of their counters. *)
Theorem sibling_counts_add (node : NittaNode) (s1 s2 : list NittaNode)
    (a1 b1 c1 d1 a2 b2 c2 d2 : Z) :
  _extract_alternative_siblings_dict node s1 = counters a1 b1 c1 d1 →
  _extract_alternative_siblings_dict node s2 = counters a2 b2 c2 d2 →
  _extract_alternative_siblings_dict node (s1 ++ s2)
  = counters (a1 + a2) (b1 + b2) (c1 + c2) (d1 + d2).
Proof.
  rewrite !alt_dict_counters. intros H1 H2.
  apply counters_inj in H1 as (<- & <- & <- & <-).
  apply counters_inj in H2 as (<- & <- & <- & <-).
  by rewrite !alternatives_app.
Qed.

Lemma sibling_counts_add_witness :
  _extract_alternative_siblings_dict sample_root
    ([sample_bind; sample_root] ++ [sample_dataflow; sample_bind])
  = counters (1 + 1) (0 + 0) (0 + 1) (0 + 0).
Proof.
  apply sibling_counts_add.
  - rewrite alt_dict_counters. reflexivity.
  - rewrite alt_dict_counters. reflexivity.
Defined.

Lemma others_idemp (node : NittaNode) (siblings : list NittaNode) :
  others node (others node siblings) = others node siblings.
Proof.
  unfold others. induction siblings as [|s rest IH]; [reflexivity|].
  rewrite filter_cons. destruct (decide (sid s ≠ sid node)) as [Hne|Heq].
  - rewrite filter_cons, decide_True by done. by rewrite IH.
  - exact IH.
Qed.

Lemma alternatives_others (k : string) (node : NittaNode)
    (siblings : list NittaNode) :
  alternatives k node (others node siblings) = alternatives k node siblings.
Proof. unfold alternatives. by rewrite others_idemp. Qed.

(** X6. Entries with the node's own id are invisible: the counters of a
    collection are those of the collection without such entries, so adding
    one anywhere changes nothing. *)
Theorem self_entries_ignored (node : NittaNode) (siblings : list NittaNode) :
  _extract_alternative_siblings_dict node siblings
  = _extract_alternative_siblings_dict node (others node siblings)
  ∧ ∀ s l1 l2,
      siblings = l1 ++ l2 →
      sid s = sid node →
      _extract_alternative_siblings_dict node (l1 ++ s :: l2)
      = _extract_alternative_siblings_dict node siblings.
Proof.
  split.
  - rewrite !alt_dict_counters. by rewrite !alternatives_others.
  - intros s l1 l2 -> Hs. rewrite !alt_dict_counters.
    assert (∀ k, alternatives k node (l1 ++ s :: l2)
                 = alternatives k node (l1 ++ l2)) as Hk.
    { intros k. rewrite !alternatives_app, alternatives_cons. unfold weight.
      rewrite decide_False by (intros Hne; by apply Hne). lia. }
    by rewrite !Hk.
Qed.

Lemma self_entries_ignored_witness :
  _extract_alternative_siblings_dict sample_bind
    ([sample_dataflow] ++ sample_bind :: [sample_refactoring])
  = _extract_alternative_siblings_dict sample_bind
      [sample_dataflow; sample_refactoring].
Proof.
  destruct (self_entries_ignored sample_bind
              [sample_dataflow; sample_refactoring]) as (_ & Hadd).
  apply (Hadd sample_bind [sample_dataflow] [sample_refactoring]);
    reflexivity.
Defined.

(** X7. Each counter lies between 0 and the number of siblings, the four
    together do not exceed that number, and stay below it when the
    collection has an entry with the node's own id. *)
Theorem sibling_counts_bounds (node : NittaNode) (siblings : list NittaNode)
    (a b c d : Z) :
  _extract_alternative_siblings_dict node siblings = counters a b c d →
  (0 ≤ a)%Z ∧ (0 ≤ b)%Z ∧ (0 ≤ c)%Z ∧ (0 ≤ d)%Z
  ∧ (a + b + c + d ≤ Z.of_nat (length siblings))%Z
  ∧ ∀ s, s ∈ siblings → sid s = sid node →
         (a + b + c + d < Z.of_nat (length siblings))%Z.
Proof.
  rewrite alt_dict_counters. intros Heq.
  apply counters_inj in Heq as (<- & <- & <- & <-).
  pose proof (alternatives_partition node siblings) as Hsum.
  pose proof (alternatives_bounds "alt_bindings" node siblings).
  pose proof (alternatives_bounds "alt_group_bindings" node siblings).
  pose proof (alternatives_bounds "alt_dataflows" node siblings).
  pose proof (alternatives_bounds "alt_refactorings" node siblings).
  repeat split; try lia.
  - rewrite Hsum. apply inj_le. unfold others. apply length_filter.
  - intros s Hin Hs. rewrite Hsum. apply inj_lt. unfold others.
    apply (length_filter_lt _ _ s Hin). intros Hne. by apply Hne.
Qed.

Lemma sibling_counts_bounds_witness :
  (1 + 0 + 1 + 0 < Z.of_nat (length [sample_bind; sample_root;
                                     sample_dataflow]))%Z.
Proof.
  destruct (sibling_counts_bounds sample_root
              [sample_bind; sample_root; sample_dataflow] 1 0 1 0)
    as (_ & _ & _ & _ & _ & Hlt).
  - rewrite alt_dict_counters. reflexivity.
  - apply (Hlt sample_root); [|reflexivity].
    apply elem_of_cons. right. apply elem_of_cons. by left.
Defined.

Lemma alternatives_ids_tags (k : string) (node node' : NittaNode)
    (siblings : list NittaNode) :
  sid node = sid node' →
  ∀ siblings',
    id_and_tag <$> siblings = id_and_tag <$> siblings' →
    alternatives k node siblings = alternatives k node' siblings'.
Proof.
  intros Hnode. induction siblings as [|s rest IH]; intros [|s' rest'] Heq;
    try discriminate; [reflexivity|].
  injection Heq as Hid Htag Hrest. rewrite !alternatives_cons.
  rewrite (IH rest' Hrest). unfold weight. rewrite Hid, Htag, Hnode.
  reflexivity.
Qed.

(** X8. Of a sibling only the id and the decision tag are read, and of the
    node only the id: collections that agree on ids and tags, entry by
    entry, give the same counters for nodes with the same id. *)
Theorem sibling_counts_read_ids_and_tags (node node' : NittaNode)
    (siblings siblings' : list NittaNode) :
  sid node = sid node' →
  id_and_tag <$> siblings = id_and_tag <$> siblings' →
  _extract_alternative_siblings_dict node siblings
  = _extract_alternative_siblings_dict node' siblings'.
Proof.
  intros Hnode Heq. rewrite !alt_dict_counters.
  by rewrite !(alternatives_ids_tags _ node node' siblings Hnode siblings' Heq).
Qed.

Lemma sibling_counts_read_ids_and_tags_witness :
  _extract_alternative_siblings_dict sample_bind [sample_dataflow]
  = _extract_alternative_siblings_dict sample_bind_untagged
      [sample_dataflow_tagged].
Proof.
  apply sibling_counts_read_ids_and_tags; reflexivity.
Defined.

(** ** Payloads that break the row *)

(** X9. A Dataflow node whose parameters lack [pNotTransferableInputs]
    raises a key error; one whose field is a sequence with an item that is
    not a number, or is no sequence at all (none, a number, a boolean),
    raises a type error. *)
Theorem dataflow_bad_inputs (node : NittaNode) (m : gmap string PyVal)
    (siblings : list NittaNode) (example : option string) :
  decision_tag node = "DataflowDecisionView" →
  parameters node = PDict m →
  (m !! "pNotTransferableInputs" = None →
   nitta_node_to_df_dict node siblings example = Raise KeyError)
  ∧ (∀ xs, m !! "pNotTransferableInputs" = Some (PList xs) →
           as_numbers xs = None →
           nitta_node_to_df_dict node siblings example = Raise TypeError)
  ∧ (∀ v, m !! "pNotTransferableInputs" = Some v →
          v = PNone ∨ (∃ z, v = PInt z) ∨ (∃ b, v = PBool b) →
          nitta_node_to_df_dict node siblings example = Raise TypeError).
Proof.
  intros Htag Hpar. pose proof (extract_dataflow node m Htag Hpar) as Hp.
  unfold dict_getitem in Hp. split; [|split].
  - intros Hnone. rewrite Hnone in Hp. by apply row_params_raise.
  - intros xs Hxs Hnum. rewrite Hxs in Hp. simpl in Hp.
    rewrite sum_from_numbers, Hnum in Hp. by apply row_params_raise.
  - intros v Hv Hshape. rewrite Hv in Hp. apply row_params_raise.
    rewrite Hp. destruct Hshape as [-> | [[z ->] | [b ->]]]; reflexivity.
Qed.

Lemma dataflow_bad_inputs_witness :
  nitta_node_to_df_dict sample_dataflow_no_inputs [sample_bind] None
  = Raise KeyError.
Proof.
  destruct (dataflow_bad_inputs sample_dataflow_no_inputs
              (<["pWaitTime" := PInt 3]> ∅) [sample_bind] None
              eq_refl eq_refl) as (Hmissing & _).
  apply Hmissing. reflexivity.
Defined.

(** X10. A Bind node with [tag] and with another parameter named like a base
    field or a counter yields no row but a type error. *)
Theorem bind_reserved_key_clash (node : NittaNode) (m : gmap string PyVal)
    (k : string) (siblings : list NittaNode) (example : option string) :
  decision_tag node ∈ _BIND_DECISION_TAGS →
  parameters node = PDict m →
  is_Some (m !! "tag") →
  k ∈ reserved_keys → k ≠ "tag" → is_Some (m !! k) →
  _extract_params_dict node = Ok (delete "tag" m)
  ∧ nitta_node_to_df_dict node siblings example = Raise TypeError.
Proof.
  intros Htag Hpar [t Ht] Hk Hne Hin.
  assert (_extract_params_dict node = Ok (delete "tag" m)) as Hp.
  { rewrite (extract_bind node m Htag Hpar). unfold dict_delitem.
    by rewrite Ht. }
  split; [exact Hp|].
  apply (row_clash node _ _ _ k Hp Hk). by rewrite lookup_delete_ne.
Qed.

Lemma bind_reserved_key_clash_witness :
  nitta_node_to_df_dict sample_bind_clash [sample_root] None
  = Raise TypeError.
Proof.
  destruct (bind_reserved_key_clash sample_bind_clash
              (<["tag" := PStr "GroupBindMetrics"]>
                 (<["sid" := PStr "inner"]> ∅))
              "sid" [sample_root] None) as (_ & Hrow).
  - apply py_in_true. reflexivity.
  - reflexivity.
  - eexists. reflexivity.
  - apply (bool_decide_unpack _). vm_compute. reflexivity.
  - discriminate.
  - eexists. reflexivity.
  - exact Hrow.
Defined.

Lemma as_numbers_flags (flags : list bool) :
  as_numbers (PBool <$> flags) = Some (Z.b2z <$> flags).
Proof.
  unfold as_numbers. induction flags as [|b rest IH]; [reflexivity|].
  change (mapM py_num (PBool <$> b :: rest))
    with (y ← py_num (PBool b);
          k ← mapM py_num (PBool <$> rest); mret (y :: k)).
  rewrite IH. reflexivity.
Qed.

Lemma total_flags (flags : list bool) :
  total (Z.b2z <$> flags)
  = Z.of_nat (length (filter (fun b => b = true) flags)).
Proof.
  unfold total. induction flags as [|b rest IH]; [reflexivity|].
  rewrite fmap_cons. cbn [foldr]. rewrite IH, filter_cons.
  destruct b.
  - rewrite decide_True by done. cbn [length Z.b2z]. lia.
  - rewrite decide_False by done. cbn [Z.b2z]. lia.
Qed.

(** X11. Boolean flags are counted: for a Dataflow node whose sequence is
    made of booleans, the field becomes the number of flags that are
    true. *)
Theorem dataflow_flags_counted (node : NittaNode) (m : gmap string PyVal)
    (flags : list bool) :
  decision_tag node = "DataflowDecisionView" →
  parameters node = PDict m →
  m !! "pNotTransferableInputs" = Some (PList (PBool <$> flags)) →
  _extract_params_dict node
  = Ok (<["pNotTransferableInputs" :=
            PInt (Z.of_nat (length (filter (fun b => b = true) flags)))]> m).
Proof.
  intros Htag Hpar Hflags.
  rewrite (extract_dataflow node m Htag Hpar). unfold dict_getitem.
  rewrite Hflags. simpl. rewrite sum_from_numbers, as_numbers_flags.
  simpl. by rewrite total_flags.
Qed.

Lemma dataflow_flags_counted_witness :
  _extract_params_dict sample_dataflow_flags
  = Ok (<["pNotTransferableInputs" := PInt 2]>
          (<["pNotTransferableInputs" :=
               PList [PBool true; PBool false; PBool true]]> ∅)).
Proof.
  apply (dataflow_flags_counted sample_dataflow_flags
           (<["pNotTransferableInputs" :=
                PList [PBool true; PBool false; PBool true]]> ∅)
           [true; false; true]); reflexivity.
Defined.

End ExtractorProperties.

(** * Further properties of the driver and the orchestrator *)

Module CrawlingProperties.
Import DataCrawling DataCrawlingFacts.

Section WithEnv.
Context `{Env}.

(** ** One example *)

(** X12. On an existing source, when the sampler returns, the driver
    returns what processing gives for all the rows appended, which the
    accumulator holds; it logs nothing but its first line. *)
Theorem sampling_completes (example : Path) (data_dir : PyVal)
    (runner_kwargs : Dict) (w : World) :
  path_exists example = true →
  ending (sampling_call example runner_kwargs) = None →
  (crawl_data_from_example example data_dir runner_kwargs w).1
  = process_and_save_sampling_results example
      (appended (sampling_call example runner_kwargs)) data_dir
  ∧ heap (crawl_data_from_example example data_dir runner_kwargs w).2
      !! fresh (dom (heap w))
    = Some (appended (sampling_call example runner_kwargs))
  ∧ trace (crawl_data_from_example example data_dir runner_kwargs w).2
    = trace w
      ++ EvLog INFO (StartingExample example)
         :: sampling_events example runner_kwargs
      ++ [EvProcessAndSave example
            (appended (sampling_call example runner_kwargs)) data_dir].
Proof.
  intros Hex Hend. rewrite crawl_example_run.
  unfold example_result, example_events. cbn [fst snd heap trace].
  rewrite Hex, Hend.
  split; [reflexivity|]. split; [apply lookup_insert_eq | reflexivity].
Qed.

(** X13. An exception of the sampler that is neither a keyboard interrupt
    nor an [Exception] (system exit, generator exit, cancellation) leaves
    the driver: the rows appended so far stay in the accumulator and are
    never handed over for processing. *)
Theorem uncaught_exception_loses_rows (example : Path) (data_dir : PyVal)
    (runner_kwargs : Dict) (w : World) (e : PyExc) :
  path_exists example = true →
  ending (sampling_call example runner_kwargs) = Some e →
  e = SystemExit ∨ e = GeneratorExit ∨ e = CancelledError →
  (crawl_data_from_example example data_dir runner_kwargs w).1 = Raise e
  ∧ heap (crawl_data_from_example example data_dir runner_kwargs w).2
      !! fresh (dom (heap w))
    = Some (appended (sampling_call example runner_kwargs))
  ∧ trace (crawl_data_from_example example data_dir runner_kwargs w).2
    = trace w
      ++ EvLog INFO (StartingExample example)
         :: sampling_events example runner_kwargs
  ∧ filter is_processing
      (EvLog INFO (StartingExample example)
       :: sampling_events example runner_kwargs) = [].
Proof.
  intros Hex Hend Hclass.
  assert (caught e = false) as Hun
    by (destruct Hclass as [-> | [-> | ->]]; reflexivity).
  rewrite crawl_example_run. unfold example_result, example_events.
  cbn [fst snd heap trace]. rewrite Hex, Hend, Hun.
  split; [reflexivity|]. split; [apply lookup_insert_eq|].
  split; [by rewrite app_nil_r|].
  unfold sampling_events. by case_bool_decide.
Qed.

(** X14. A [results_accum] among the keywords never reaches the sampler:
    the call fails with a type error that the driver logs, the sampler is
    not started, and processing is given no rows. *)
Theorem results_accum_keyword_clash (example : Path) (data_dir : PyVal)
    (runner_kwargs : Dict) (w : World) :
  path_exists example = true →
  "results_accum" ∈@{gset string} dom runner_kwargs →
  (crawl_data_from_example example data_dir runner_kwargs w).1
  = process_and_save_sampling_results example [] data_dir
  ∧ trace (crawl_data_from_example example data_dir runner_kwargs w).2
    = trace w
      ++ [EvLog INFO (StartingExample example);
          EvLog ERROR (UnexpectedError TypeError);
          EvProcessAndSave example [] data_dir].
Proof.
  intros Hex Hkw. rewrite crawl_example_run.
  unfold example_result, example_events, sampling_call, sampling_events.
  cbn [fst snd trace]. rewrite Hex, !bool_decide_eq_true_2 by done.
  split; reflexivity.
Qed.

(** X15. What processing raises leaves the driver: after a sampler run that
    returned or was absorbed, an exception of
    [process_and_save_sampling_results] is the outcome of the driver, and
    of the orchestrator when the example is the first item. *)
Theorem processing_error_propagates (example : Path) (kwargs : Dict)
    (w : World) (e : PyExc) :
  path_exists example = true →
  "example" ∉@{gset string} dom kwargs →
  kwargs !! "data_dir" = None →
  (∀ e', ending (sampling_call example kwargs) = Some e' →
         caught e' = true) →
  process_and_save_sampling_results example
    (appended (sampling_call example kwargs)) (PStr DATA_DIR) = Raise e →
  (crawl_data_from_example example (PStr DATA_DIR) kwargs w).1 = Raise e
  ∧ ∀ rest,
      (crawl_data_from_many_examples (Some ((example, kwargs) :: rest)) w).1
      = Raise e.
Proof.
  intros Hex Hkw Hdd Hend Hproc.
  assert (example_result example (PStr DATA_DIR) kwargs = Raise e) as Hres.
  { unfold example_result. rewrite Hex.
    destruct (ending _) as [e'|]; [|exact Hproc].
    by rewrite (Hend e' eq_refl). }
  split.
  - rewrite crawl_example_run. exact Hres.
  - intros rest.
    destruct (crawl_many_run ((example, kwargs) :: rest) w) as [h ->].
    cbn [fst loop_result].
    assert (call_result example kwargs = Raise e) as ->; [|reflexivity].
    unfold call_result. rewrite bool_decide_eq_false_2 by done.
    rewrite Hdd. cbn [default]. rewrite delete_id by done. exact Hres.
Qed.

(** ** Keywords of the call *)

Lemma call_events_shape (example : Path) (kwargs : Dict) :
  Forall (event_of_call example kwargs) (call_events example kwargs).
Proof.
  unfold call_events. case_bool_decide; [constructor|].
  unfold example_events. constructor; [exact I|].
  destruct (path_exists example); [|by repeat constructor].
  apply Forall_app. split.
  - unfold sampling_events. case_bool_decide; by repeat constructor.
  - destruct (ending _) as [e|]; [|by repeat constructor].
    destruct (caught e); [|constructor].
    apply Forall_app. split; [destruct e|]; by repeat constructor.
Qed.

(** X16. The keywords of a configuration item are bound to the signature
    of the driver: an [example] keyword is a type error before anything is
    done; otherwise the sampler is started for the item's example without
    the [data_dir] keyword, processing is given [data_dir], or [DATA_DIR]
    when there is none, and no summary is persisted by the call. *)
Theorem call_keywords_bound (example : Path) (kwargs : Dict) (w : World) :
  ("example" ∈@{gset string} dom kwargs →
   call_crawl_data_from_example example kwargs w = (Raise TypeError, w))
  ∧ ∀ ev,
      ev ∈ trace (call_crawl_data_from_example example kwargs w).2 →
      ev ∈ trace w ∨ event_of_call example kwargs ev.
Proof.
  split.
  - intros Hkw. unfold call_crawl_data_from_example.
    by rewrite bool_decide_eq_true_2.
  - intros ev. destruct (call_run example kwargs w) as [h ->].
    cbn [snd trace]. rewrite elem_of_app. intros [Hold|Hnew]; [by left|].
    right. pose proof (call_events_shape example kwargs) as Hall.
    rewrite Forall_forall in Hall. by apply Hall.
Qed.

(** ** A call that raises *)

Lemma raises_result (item : Path * Dict) (e : PyExc) :
  (∀ w, (call_crawl_data_from_example item.1 item.2 w).1 = Raise e) →
  call_result item.1 item.2 = Raise e.
Proof.
  intros Hr. by rewrite <- (call_result_run _ _ empty_world), (Hr empty_world).
Qed.

Lemma loop_result_raise (before after : CrawlConfig) (item : Path * Dict)
    (e : PyExc) :
  Forall returns before →
  call_result item.1 item.2 = Raise e →
  ∀ summary_stats,
    loop_result (before ++ item :: after) summary_stats = Raise e.
Proof.
  intros Hret Hraise.
  induction Hret as [|[example kwargs] rest Hr _ IH]; intros summary_stats.
  - destruct item as [example kwargs]. cbn [app loop_result].
    cbn [fst snd] in Hraise. by rewrite Hraise.
  - cbn [app loop_result].
    apply returns_result in Hr as [[r|] Hr]; cbn [fst snd] in Hr;
      rewrite Hr; apply IH.
Qed.

Lemma loop_events_raise (n : nat) (before after : CrawlConfig)
    (item : Path * Dict) (e : PyExc) :
  Forall returns before →
  call_result item.1 item.2 = Raise e →
  ∀ i, loop_events n i (before ++ item :: after)
       = concat (imap (fun j => item_events n (i + j)) before)
         ++ item_events n (i + length before) item.
Proof.
  intros Hret Hraise.
  induction Hret as [|[example kwargs] rest Hr _ IH]; intros i.
  - destruct item as [example kwargs]. cbn [app loop_events concat imap].
    cbn [fst snd] in Hraise. rewrite Hraise, app_nil_r.
    cbn [length]. by rewrite Nat.add_0_r.
  - cbn [app loop_events]. apply returns_result in Hr as [r Hr].
    cbn [fst snd] in Hr. rewrite Hr, IH, imap_cons. cbn [concat length].
    unfold item_events at 3. cbn [fst snd]. rewrite Nat.add_0_r.
    rewrite <- !app_assoc, <- app_comm_cons. do 2 f_equal.
    replace (S i + length rest)%nat with (i + S (length rest))%nat by lia.
    f_equal. f_equal. apply imap_ext. intros j item' _. unfold compose.
    replace (i + S j)%nat with (S i + j)%nat by lia. reflexivity.
Qed.

(** X17. A call that raises ends the crawl: the items before it are
    processed, the items after it are not, the exception is the outcome of
    the orchestrator and no summary is persisted. *)
Theorem crawl_aborts_on_raise (before after : CrawlConfig)
    (item : Path * Dict) (e : PyExc) (w : World) :
  Forall returns before →
  (∀ w', (call_crawl_data_from_example item.1 item.2 w').1 = Raise e) →
  (crawl_data_from_many_examples (Some (before ++ item :: after)) w).1
  = Raise e
  ∧ trace (crawl_data_from_many_examples
             (Some (before ++ item :: after)) w).2
    = trace w
      ++ EvLog INFO (CrawlingFrom (length (before ++ item :: after))
                       ((before ++ item :: after).*1))
         :: concat (imap (item_events (length (before ++ item :: after)))
                      before)
      ++ item_events (length (before ++ item :: after)) (length before) item
  ∧ filter is_summary_save
      (trace (crawl_data_from_many_examples
                (Some (before ++ item :: after)) w).2)
    = filter is_summary_save (trace w).
Proof.
  intros Hret Hraise. apply raises_result in Hraise.
  destruct (crawl_many_run (before ++ item :: after) w) as [h ->].
  rewrite (loop_result_raise before after item e Hret Hraise []).
  rewrite (loop_events_raise _ before after item e Hret Hraise 0).
  cbn [fst snd trace]. rewrite app_nil_r.
  split; [reflexivity|]. split; [reflexivity|].
  rewrite filter_app, filter_cons. cbn [is_summary_save].
  rewrite decide_False by (intros []). rewrite filter_app.
  rewrite (items_no_summary _ before 0). unfold item_events.
  rewrite filter_cons. cbn [is_summary_save].
  rewrite decide_False by (intros []).
  rewrite call_events_no_summary. by rewrite app_nil_r.
Qed.

(** ** The store *)

Lemma example_heap (example : Path) (data_dir : PyVal) (runner_kwargs : Dict)
    (w : World) :
  heap w ⊆ heap (crawl_data_from_example example data_dir runner_kwargs w).2.
Proof.
  rewrite crawl_example_run. cbn [snd heap].
  destruct (path_exists example); [|reflexivity].
  apply insert_subseteq, (not_elem_of_dom (D := gset nat)), is_fresh.
Qed.

Lemma call_heap (example : Path) (kwargs : Dict) (w : World) :
  heap w ⊆ heap (call_crawl_data_from_example example kwargs w).2.
Proof.
  unfold call_crawl_data_from_example. case_bool_decide; [reflexivity|].
  apply example_heap.
Qed.

Lemma crawl_loop_heap (n : nat) (items : CrawlConfig) :
  ∀ i summary_stats w,
    heap w ⊆ heap (crawl_loop n i items summary_stats w).2.
Proof.
  induction items as [|[example kwargs] rest IH]; intros i summary_stats w.
  - reflexivity.
  - cbn [crawl_loop]. unfold bind at 1. unfold log, emit. unfold bind at 1.
    pose proof (call_heap example kwargs
                  (mkWorld (heap w)
                     (trace w ++ [EvLog INFO (Processing example (i + 1) n)])))
      as Hcall.
    destruct (call_crawl_data_from_example _ _ _) as [[r|e] w2];
      cbn [snd heap] in *; [|exact Hcall].
    etrans; [exact Hcall | apply IH].
Qed.

Lemma crawl_many_heap (cfg : CrawlConfig) (w : World) :
  heap w ⊆ heap (crawl_data_from_many_examples (Some cfg) w).2.
Proof.
  unfold crawl_data_from_many_examples. unfold bind at 1. unfold ret at 1.
  unfold bind at 1. unfold log at 1, emit at 1. unfold bind at 1.
  pose proof (crawl_loop_heap (length cfg) cfg 0 []
                (mkWorld (heap w)
                   (trace w
                    ++ [EvLog INFO (CrawlingFrom (length cfg) (cfg.*1))])))
    as Hloop.
  destruct (crawl_loop _ _ _ _ _) as [[summary_stats|e] w2];
    cbn [snd heap] in *; exact Hloop.
Qed.

(** X18. The driver and the orchestrator never touch a list that existed
    before the call: every example gets an accumulator of its own, and what
    the store held it still holds afterwards. *)
Theorem existing_lists_untouched (w : World) (l : nat) (rows : list Dict) :
  heap w !! l = Some rows →
  (∀ example data_dir runner_kwargs,
     heap (crawl_data_from_example example data_dir runner_kwargs w).2 !! l
     = Some rows
     ∧ l ≠ fresh (dom (heap w)))
  ∧ ∀ crawl_config,
      heap (crawl_data_from_many_examples crawl_config w).2 !! l = Some rows.
Proof.
  intros Hl. split.
  - intros example data_dir runner_kwargs. split.
    + by apply (lookup_weaken _ _ _ _ Hl), example_heap.
    + intros ->. apply elem_of_dom_2 in Hl.
      by apply (is_fresh (dom (heap w))).
  - intros [cfg|].
    + by apply (lookup_weaken _ _ _ _ Hl), crawl_many_heap.
    + change (crawl_data_from_many_examples None w)
        with (crawl_data_from_many_examples (Some MANUAL_FULL_CRAWL_CONFIG)
                (mkWorld (heap w)
                   (trace w ++ [EvLog INFO UsingDefaultConfig]))).
      by apply (lookup_weaken _ _ _ _ Hl),
           (crawl_many_heap _ (mkWorld (heap w) _)).
Qed.

End WithEnv.

(** ** The properties at work on sample environments *)

Lemma sampling_completes_witness :
  (@crawl_data_from_example
     (sample_env_with (Appends (sample_row 1) Returns) None)
     "examples/sum.lua" (PStr "data") (sampling_kwargs 3 4) empty_world).1
  = Ok (Some (mkSamplingResult [sample_row 1] ∅)).
Proof.
  destruct (@sampling_completes
              (sample_env_with (Appends (sample_row 1) Returns) None)
              "examples/sum.lua" (PStr "data") (sampling_kwargs 3 4)
              empty_world) as (Hres & _).
  - reflexivity.
  - vm_compute. reflexivity.
  - rewrite Hres. vm_compute. reflexivity.
Defined.

Lemma uncaught_exception_loses_rows_witness :
  (@crawl_data_from_example
     (sample_env_with (Appends (sample_row 1) (Raises CancelledError)) None)
     "examples/sum.lua" (PStr "data") (sampling_kwargs 3 4) empty_world).1
  = Raise CancelledError.
Proof.
  destruct (@uncaught_exception_loses_rows
              (sample_env_with
                 (Appends (sample_row 1) (Raises CancelledError)) None)
              "examples/sum.lua" (PStr "data") (sampling_kwargs 3 4)
              empty_world CancelledError) as (Hres & _).
  - reflexivity.
  - vm_compute. reflexivity.
  - right. right. reflexivity.
  - exact Hres.
Defined.

Lemma results_accum_keyword_clash_witness :
  (@crawl_data_from_example sample_env "examples/sum.lua" (PStr "data")
     (<["results_accum" := PNone]> ∅) empty_world).1
  = Ok (Some (mkSamplingResult [] {["n_rows" := PInt 0]})).
Proof.
  destruct (@results_accum_keyword_clash sample_env "examples/sum.lua"
              (PStr "data") (<["results_accum" := PNone]> ∅) empty_world)
    as (Hres & _).
  - reflexivity.
  - apply (bool_decide_unpack _). vm_compute. reflexivity.
  - rewrite Hres. reflexivity.
Defined.

Lemma processing_error_propagates_witness :
  (@crawl_data_from_many_examples
     (sample_env_with Returns (Some (OtherException "OSError")))
     (Some [("examples/sum.lua", sampling_kwargs 1 2);
            ("examples/missing.lua", sampling_kwargs 3 4)]) empty_world).1
  = Raise (OtherException "OSError").
Proof.
  destruct (@processing_error_propagates
              (sample_env_with Returns (Some (OtherException "OSError")))
              "examples/sum.lua" (sampling_kwargs 1 2) empty_world
              (OtherException "OSError")) as (_ & Hmany).
  - reflexivity.
  - apply (bool_decide_unpack _). vm_compute. reflexivity.
  - vm_compute. reflexivity.
  - intros e' He'. vm_compute in He'. discriminate.
  - reflexivity.
  - apply Hmany.
Defined.

Lemma call_keywords_bound_witness :
  @call_crawl_data_from_example sample_env "examples/sum.lua"
    (<["example" := PStr "examples/other.lua"]> ∅) empty_world
  = (Raise TypeError, empty_world).
Proof.
  destruct (@call_keywords_bound sample_env "examples/sum.lua"
              (<["example" := PStr "examples/other.lua"]> ∅) empty_world)
    as (Hclash & _).
  apply Hclash. apply (bool_decide_unpack _). vm_compute. reflexivity.
Defined.

Lemma crawl_aborts_on_raise_witness :
  (@crawl_data_from_many_examples (sample_env_with (Raises SystemExit) None)
     (Some ([("examples/missing.lua", sampling_kwargs 1 2)]
            ++ ("examples/sum.lua", sampling_kwargs 3 4)
               :: [("examples/sum.lua", sampling_kwargs 5 6)]))
     empty_world).1
  = Raise SystemExit.
Proof.
  destruct (@crawl_aborts_on_raise (sample_env_with (Raises SystemExit) None)
              [("examples/missing.lua", sampling_kwargs 1 2)]
              [("examples/sum.lua", sampling_kwargs 5 6)]
              ("examples/sum.lua", sampling_kwargs 3 4) SystemExit
              empty_world) as (Hres & _).
  - repeat constructor. intros w. rewrite call_result_run. eexists.
    vm_compute. reflexivity.
  - intros w. rewrite call_result_run. vm_compute. reflexivity.
  - exact Hres.
Defined.

Lemma existing_lists_untouched_witness :
  heap (@crawl_data_from_many_examples sample_env None
          (mkWorld {[0%nat := [sample_row 7]]} [])).2 !! 0%nat
  = Some [sample_row 7].
Proof.
  destruct (@existing_lists_untouched sample_env
              (mkWorld {[0%nat := [sample_row 7]]} []) 0%nat [sample_row 7])
    as (_ & Hmany).
  - reflexivity.
  - apply Hmany.
Defined.

End CrawlingProperties.
